(** * Rate-based rule provider: a shallow embedding of
      [src/rate_based_rule_provider.py]

    The provider is a CloudFormation custom-resource handler.  Its three
    handlers ([create], [update], [delete]) talk to the WAF service through
    a module-level client and to the hosting framework through
    [self.success], [self.fail] and [self.physical_resource_id].

    The embedding keeps the dynamic typing of the source where the handlers
    depend on it: request properties are Python values ([pyval]), and
    iteration, subscripting and [pop] raise the exceptions Python raises.
    The service and the framework are outside the program: the service is
    a parameter ([Service]) that may answer every call with a reply or a
    [ClientError], or leave the client to raise an exception of its own,
    and what the handlers do to either is kept in logs in the [World].

    Left out: [print] and logging, the conversion of property types done
    by the framework before a handler runs, and the interpreter's
    recursion limit. *)

From Stdlib Require Import ZArith String List Bool Lia.
From Equations Require Import Equations.
Import ListNotations.
Set Warnings "-register-all".
Open Scope string_scope.
Open Scope list_scope.
Open Scope Z_scope.

(** ** Python values *)

(** The JSON-shaped values a request can carry.  A dict is kept as an
    association list in insertion order; keys are strings, as in JSON. *)
Inductive pyval : Type :=
| PNone
| PBool (b : bool)
| PInt (n : Z)
| PStr (s : string)
| PList (xs : list pyval)
| PDict (kvs : list (string * pyval)).

Definition pydict : Type := list (string * pyval).

(** The exceptions the handlers can meet.  [ClientError] carries the two
    views of a botocore error that the source reads, [str(error)] and
    [error.response['Error']['Message']], and the one by which the service
    names the error, [error.response['Error']['Code']], which the source
    never reads. *)
Record client_error : Type := mkClientError {
  error_str : string;
  error_message : string;
  error_code : string
}.

(** [OverflowError] and [OSError] come from [time.sleep] only.
    [BotoCoreError] stands for every exception of the client that is not a
    [ClientError] (botocore's [ParamValidationError],
    [EndpointConnectionError] and the like), under the name of its class;
    no [except] clause of the source catches one. *)
Inductive exn : Type :=
| ClientError (e : client_error)
| TypeError
| KeyError (key : string)
| AttributeError
| ValueError
| OverflowError
| OSError
| BotoCoreError (name : string).

Inductive result (A : Type) : Type :=
| Ok (a : A)
| Raise (e : exn).
Arguments Ok {A} a.
Arguments Raise {A} e.

Module Py.

(** [d[k]] lookup on the association list of a dict. *)
Fixpoint dict_get {A : Type} (d : list (string * A)) (k : string) : option A :=
  match d with
  | [] => None
  | (k', v) :: d' => if String.eqb k k' then Some v else dict_get d' k
  end.

(** [k in d]. *)
Definition dict_mem {A : Type} (d : list (string * A)) (k : string) : bool :=
  match dict_get d k with Some _ => true | None => false end.

(** [d.pop(k, None)] seen as the dict that is left. *)
Fixpoint dict_remove {A : Type} (d : list (string * A)) (k : string)
  : list (string * A) :=
  match d with
  | [] => []
  | (k', v) :: d' =>
      if String.eqb k k' then dict_remove d' k else (k', v) :: dict_remove d' k
  end.

(** [d.update({k: v})]: an existing key keeps its place, a new key goes
    last. *)
Fixpoint dict_set {A : Type} (d : list (string * A)) (k : string) (v : A)
  : list (string * A) :=
  match d with
  | [] => [(k, v)]
  | (k', v') :: d' =>
      if String.eqb k k' then (k, v) :: d' else (k', v') :: dict_set d' k v
  end.

(** Python's [==] on these values: a bool is the int 0 or 1, lists compare
    element by element, dicts compare as mappings (order of insertion does
    not matter). *)
Fixpoint eqb (a b : pyval) {struct a} : bool :=
  match a, b with
  | PNone, PNone => true
  | PBool x, PBool y => Bool.eqb x y
  | PBool x, PInt n => Z.eqb (Z.b2z x) n
  | PInt n, PBool x => Z.eqb n (Z.b2z x)
  | PInt m, PInt n => Z.eqb m n
  | PStr s, PStr t => String.eqb s t
  | PList xs, PList ys =>
      (fix go (xs ys : list pyval) {struct xs} : bool :=
         match xs, ys with
         | [], [] => true
         | x :: xs', y :: ys' => eqb x y && go xs' ys'
         | _, _ => false
         end) xs ys
  | PDict kvs, PDict kvs' =>
      Nat.eqb (length kvs) (length kvs') &&
      (fix go (kvs : list (string * pyval)) {struct kvs} : bool :=
         match kvs with
         | [] => true
         | (k, v) :: rest =>
             match dict_get kvs' k with
             | Some v' => eqb v v'
             | None => false
             end && go rest
         end) kvs
  | _, _ => false
  end.

(** [x is None]. *)
Definition is_none (v : pyval) : bool :=
  match v with PNone => true | _ => false end.

(** Lists and dicts cannot be hashed, so they are neither set members nor
    dict keys. *)
Definition hashable (v : pyval) : bool :=
  match v with PList _ | PDict _ => false | _ => true end.

Fixpoint chars (s : string) : list pyval :=
  match s with
  | EmptyString => []
  | String c s' => PStr (String c EmptyString) :: chars s'
  end.

(** What a [for x in v] loop visits: the elements of a list, the keys of
    a dict, the characters of a string; anything else is not iterable. *)
Definition iter (v : pyval) : result (list pyval) :=
  match v with
  | PList xs => Ok xs
  | PDict kvs => Ok (map (fun kv => PStr (fst kv)) kvs)
  | PStr s => Ok (chars s)
  | _ => Raise TypeError
  end.

(** [v[k]] for a string key [k]: only a dict takes it. *)
Definition getitem (v : pyval) (k : string) : result pyval :=
  match v with
  | PDict kvs =>
      match dict_get kvs k with
      | Some x => Ok x
      | None => Raise (KeyError k)
      end
  | _ => Raise TypeError
  end.

(** [set(v)], kept as the list of its members. *)
Definition to_set (v : pyval) : result (list pyval) :=
  match iter v with
  | Ok items => if forallb hashable items then Ok items else Raise TypeError
  | Raise e => Raise e
  end.

(** [container.pop(key, None)], seen as the container that is left.
    Only a dict has a two-argument [pop]; a list's [pop] takes one
    argument at most, and the other values have no [pop] at all. *)
Definition pop_default (container key : pyval) : result pyval :=
  match container with
  | PDict kvs =>
      match key with
      | PList _ | PDict _ => Raise TypeError
      | PStr k => Ok (PDict (dict_remove kvs k))
      | _ => Ok container
      end
  | PList _ => Raise TypeError
  | _ => Raise AttributeError
  end.

(** [needle in haystack] on strings. *)
Fixpoint contains (haystack needle : string) : bool :=
  String.prefix needle haystack ||
  match haystack with
  | EmptyString => false
  | String _ rest => contains rest needle
  end.

End Py.

(** ** The world the handlers act on *)

(** A call on the module-level WAF client, with the keyword arguments it
    was given. *)
Inductive Call : Type :=
| GetChangeToken
| CreateRateBasedRule (kwargs : pydict)
| UpdateRateBasedRule (kwargs : pydict)
| DeleteRateBasedRule (kwargs : pydict)
| GetChangeTokenStatus (change_token : string).

(** What a call on the client comes to: a reply of the service, a
    [ClientError] raised for an error response of the service, or another
    exception of the client, [BotoCoreError], for a call it did not
    complete (keyword arguments it refuses, no connection).  A reply is
    the part of the response that the source reads; responses are taken
    to hold the keys the source subscripts them with. *)
Inductive reply (A : Type) : Type :=
| Reply (a : A)
| Fault (e : client_error)
| Abort (name : string).
Arguments Reply {A} a.
Arguments Fault {A} e.
Arguments Abort {A} name.

(** The reply to [create_rate_based_rule]: [response['Rule']['RuleId']] and
    [response['ChangeToken']]. *)
Record CreateResponse : Type := mkCreateResponse {
  rule_id : string;
  create_change_token : string
}.

(** The service is outside the program.  Each operation answers from the
    calls made before it (oldest first) and its own arguments, so a service
    may answer the same question differently over time. *)
Record Service : Type := mkService {
  svc_get_change_token : list Call -> reply string;
  svc_create_rate_based_rule : list Call -> pydict -> reply CreateResponse;
  svc_update_rate_based_rule : list Call -> pydict -> reply string;
  svc_delete_rate_based_rule : list Call -> pydict -> reply string;
  svc_get_change_token_status : list Call -> string -> reply string
}.

(** The text handed to [self.success] and [self.fail].  The f-strings of
    the source are kept as their template and the values put in it. *)
Inductive Reason : Type :=
| Literal (text : string)
| ErrorText (error : client_error)
    (* f'{error}' *)
| MaxRetriesReached (max_retries : Z)
    (* f"Max retries ({max_retries}) reached, something must have gone wrong." *)
| MissingFields (new_predicate : pyval) (missing : list string).
    (* f"Predicate {new_predicate} is missing required fields: {missing}" *)

(** A completion signal sent to the hosting framework. *)
Inductive Signal : Type :=
| Success (reason : option Reason)
| Fail (reason : Reason).

(** The dict [wait_on_status] returns. *)
Record StatusRecord : Type := mkStatus {
  status_Success : bool;
  status_Reason : Reason
}.

(** The request the framework hands to the provider: [self.properties]
    (which is [self.request['ResourceProperties']]) and
    [self.old_properties]. *)
Record Request : Type := mkRequest {
  properties : pydict;
  old_properties : pydict
}.

(** Everything a handler can change or be observed through: the resource
    identity, the signals sent to the framework, the calls made on the
    client and the intervals slept, each log oldest first. *)
Record World : Type := mkWorld {
  physical_resource_id : pyval;
  signals : list Signal;
  calls : list Call;
  sleeps : list Z
}.

(** The outcome the framework reports is the last signal it was sent. *)
Definition reported (w : World) : option Signal :=
  last (map Some (signals w)) None.

(** The number of status checks made so far. *)
Definition status_checks (w : World) : nat :=
  length (filter (fun c => match c with GetChangeTokenStatus _ => true | _ => false end)
                 (calls w)).

(** ** Statements with effects and exceptions *)

Definition M (A : Type) : Type := World -> result A * World.

Definition ret {A : Type} (a : A) : M A := fun w => (Ok a, w).

Definition bind {A B : Type} (m : M A) (k : A -> M B) : M B :=
  fun w =>
    match m w with
    | (Ok a, w') => k a w'
    | (Raise e, w') => (Raise e, w')
    end.

Definition raise {A : Type} (e : exn) : M A := fun w => (Raise e, w).

(** A pure step that may raise. *)
Definition lift {A : Type} (r : result A) : M A := fun w => (r, w).

(** [try: body except ClientError as error: handler].  Every other
    exception leaves the [try] as it came. *)
Definition try_except_ClientError {A : Type} (body : M A)
    (handler : client_error -> M A) : M A :=
  fun w =>
    match body w with
    | (Raise (ClientError error), w') => handler error w'
    | other => other
    end.

Declare Scope py_scope.
Delimit Scope py_scope with py.
Notation "x <- m ;; k" := (bind m (fun x => k))
  (at level 61, m at next level, right associativity) : py_scope.
Notation "m ;; k" := (bind m (fun _ => k))
  (at level 61, right associativity) : py_scope.
Open Scope py_scope.

Definition with_physical_resource_id (w : World) (v : pyval) : World :=
  mkWorld v (signals w) (calls w) (sleeps w).

Definition with_signal (w : World) (s : Signal) : World :=
  mkWorld (physical_resource_id w) (signals w ++ [s]) (calls w) (sleeps w).

Definition with_call (w : World) (c : Call) : World :=
  mkWorld (physical_resource_id w) (signals w) (calls w ++ [c]) (sleeps w).

Definition with_sleep (w : World) (interval : Z) : World :=
  mkWorld (physical_resource_id w) (signals w) (calls w) (sleeps w ++ [interval]).

Definition set_physical_resource_id (v : pyval) : M unit :=
  fun w => (Ok tt, with_physical_resource_id w v).

Definition get_physical_resource_id : M pyval :=
  fun w => (Ok (physical_resource_id w), w).

Definition signal (s : Signal) : M unit :=
  fun w => (Ok tt, with_signal w s).

(** [self.success(reason)] and [self.fail(reason)] of the framework
    ([cfn_resource_provider], not part of the sources): each call is a
    signal, and a later signal overrides an earlier one ([reported]). *)
Definition success (reason : option Reason) : M unit := signal (Success reason).
Definition fail (reason : Reason) : M unit := signal (Fail reason).

(** [time.sleep(interval)] on CPython 3 and a 64-bit Linux, for a length
    that is an [int].  The length is first turned into a count of
    nanoseconds in 64 bits, which is an [OverflowError] beyond
    [max_timestamp] seconds either way; a negative length is then a
    [ValueError]; the rest goes to the system's clock, which answers a
    deadline it cannot hold with an [OSError].  The deadline is the length
    added to the reading of the monotonic clock, so between [longest_sleep]
    and [max_timestamp] the outcome depends on that reading (223372036
    seconds, seven years, at most): the model refuses these lengths, so
    that nothing is proved from a sleep the platform may refuse, and a
    length up to [longest_sleep] is slept whatever the clock reads. *)
Definition max_timestamp : Z := 9223372036.
Definition longest_sleep : Z := 9000000000.

Definition sleep_error (interval : Z) : option exn :=
  if (interval <? - max_timestamp) || (max_timestamp <? interval) then
    Some OverflowError
  else if interval <? 0 then Some ValueError
  else if longest_sleep <? interval then Some OSError
  else None.

Definition sleep (interval : Z) : M unit :=
  fun w =>
    match sleep_error interval with
    | Some e => (Raise e, w)
    | None => (Ok tt, with_sleep w interval)
    end.

(** A call on the client: it is logged, the service's fault is raised as
    a [ClientError], and a call the client does not complete raises its
    [BotoCoreError]. *)
Definition client_call {A : Type} (c : Call) (answer : list Call -> reply A) : M A :=
  fun w =>
    match answer (calls w) with
    | Reply a => (Ok a, with_call w c)
    | Fault e => (Raise (ClientError e), with_call w c)
    | Abort name => (Raise (BotoCoreError name), with_call w c)
    end.

(** [status['Success']] and [status['Reason']] on what [wait_on_status]
    returned: [None] is not subscriptable. *)
Definition status_getitem {A : Type} (status : option StatusRecord)
    (field : StatusRecord -> A) : M A :=
  match status with
  | Some record => ret (field record)
  | None => raise TypeError
  end.

Definition default_interval : Z := 30.
Definition default_max_interval : Z := 30.
Definition default_max_retries : Z := 15.

(** The polls [wait_on_status] can still make after this one: none when the
    budget of this call is used up, and otherwise those of the recursive
    call, which runs with the default budget. *)
Definition polls_left (current_retry max_retries : Z) : nat :=
  if Z_ge_dec current_retry max_retries then 0%nat
  else S (Z.to_nat (default_max_retries - (current_retry + 1))).

Section Provider.

Variable client : Service.
Variable request : Request.

Definition client_get_change_token : M string :=
  client_call GetChangeToken (svc_get_change_token client).

Definition client_create_rate_based_rule (kwargs : pydict) : M CreateResponse :=
  client_call (CreateRateBasedRule kwargs)
              (fun log => svc_create_rate_based_rule client log kwargs).

Definition client_update_rate_based_rule (kwargs : pydict) : M string :=
  client_call (UpdateRateBasedRule kwargs)
              (fun log => svc_update_rate_based_rule client log kwargs).

Definition client_delete_rate_based_rule (kwargs : pydict) : M string :=
  client_call (DeleteRateBasedRule kwargs)
              (fun log => svc_delete_rate_based_rule client log kwargs).

Definition client_get_change_token_status (change_token : string) : M string :=
  client_call (GetChangeTokenStatus change_token)
              (fun log => svc_get_change_token_status client log change_token).

(** [wait_on_status].  The recursive call names [current_retry] and
    [interval] only, so [max_interval] and [max_retries] take their
    defaults there.  That is also why the recursion ends: from the second
    call on the budget is the default one, and [current_retry] grows. *)
Equations? wait_on_status (change_token : string)
    (current_retry interval max_interval max_retries : Z)
  : M (option StatusRecord)
  by wf (polls_left current_retry max_retries) lt :=
  wait_on_status change_token current_retry interval max_interval max_retries :=
    try_except_ClientError
      (response <- client_get_change_token_status change_token ;;
       if negb (String.eqb response "INSYNC") then
         match Z_ge_dec current_retry max_retries with
         | left _ =>
             ret (Some (mkStatus false (MaxRetriesReached max_retries)))
         | right _ =>
             sleep interval ;;
             wait_on_status change_token (current_retry + 1)
                            (Z.min (interval + interval) max_interval)
                            default_max_interval default_max_retries
         end
       else
         ret (Some (mkStatus true (Literal ""))))
      (fun error =>
         set_physical_resource_id (PStr "failed-to-create") ;;
         fail (ErrorText error) ;;
         ret None).
Proof.
  unfold polls_left, default_max_retries.
  destruct (Z_ge_dec current_retry max_retries) as [Hge | _]; [contradiction |].
  destruct (Z_ge_dec (current_retry + 1) 15); lia.
Qed.

(** The default arguments the three handlers call [wait_on_status]
    with: [self.wait_on_status(token, current_retry=0)]. *)
Definition wait_for (change_token : string) : M (option StatusRecord) :=
  wait_on_status change_token 0 default_interval default_max_interval
                 default_max_retries.

(** *** [update] and the two functions local to it *)

(** [find_old_predicate]: the loop returns in both branches of its first
    round, and a loop that never runs falls through to [None]. *)
Definition find_old_predicate (new_pred old_preds : pyval) : result pyval :=
  match Py.iter old_preds with
  | Raise e => Raise e
  | Ok [] => Ok PNone
  | Ok (old_pred :: _) =>
      match Py.getitem new_pred "DataId" with
      | Raise e => Raise e
      | Ok new_id =>
          match Py.getitem old_pred "DataId" with
          | Raise e => Raise e
          | Ok old_id =>
              if Py.eqb new_id old_id then Ok old_pred else Ok PNone
          end
      end
  end.

Definition required_fields : list string := ["Negated"; "Type"; "DataId"].

(** [missing_fields]: [set(required_fields) - set(kwargs)], kept in the
    order of [required_fields]. *)
Definition missing_fields (kwargs : pyval) : result (list string) :=
  match Py.to_set kwargs with
  | Raise e => Raise e
  | Ok members =>
      Ok (filter (fun field => negb (existsb (Py.eqb (PStr field)) members))
                 required_fields)
  end.

Definition delete_entry (predicate : pyval) : pyval :=
  PDict [("Action", PStr "DELETE"); ("Predicate", predicate)].

Definition insert_entry (predicate : pyval) : pyval :=
  PDict [("Action", PStr "INSERT"); ("Predicate", predicate)].

(** The [for new_predicate in new_predicates] loop.  It hands back
    [old_predicates], [deletes] and [inserts] as the loop leaves them, or
    [None] when the loop body returned from [update]. *)
Fixpoint match_new_predicates (new_predicates : list pyval)
    (old_predicates : pyval) (deletes inserts : list pyval)
  : M (option (pyval * list pyval * list pyval)) :=
  match new_predicates with
  | [] => ret (Some (old_predicates, deletes, inserts))
  | new_predicate :: rest =>
      missing <- lift (missing_fields new_predicate) ;;
      match missing with
      | [] =>
          old_predicate <- lift (find_old_predicate new_predicate old_predicates) ;;
          old_predicates <- lift (Py.pop_default old_predicates old_predicate) ;;
          if negb (Py.is_none old_predicate)
             && negb (Py.eqb new_predicate old_predicate) then
            match_new_predicates rest old_predicates
              (deletes ++ [delete_entry old_predicate])
              (inserts ++ [insert_entry new_predicate])
          else if Py.is_none old_predicate then
            match_new_predicates rest old_predicates deletes
              (inserts ++ [insert_entry new_predicate])
          else
            match_new_predicates rest old_predicates deletes inserts
      | _ :: _ =>
          fail (MissingFields new_predicate missing) ;;
          ret None
      end
  end.

(** Line 79: [{}] when the old properties have no ['MatchPredicates'],
    and their ['MatchPredicates'] otherwise. *)
Definition previous_predicates : pyval :=
  match Py.dict_get (old_properties request) "MatchPredicates" with
  | None => PDict []
  | Some match_predicates => match_predicates
  end.

(** Lines 79 to 120 of [update]: the delete and the insert list, or
    [None] when [update] has returned after [self.fail]. *)
Definition reconcile (remove_all : bool)
  : M (option (list pyval * list pyval)) :=
  let old_predicates := previous_predicates in
  matched <-
    (if negb remove_all then
       new_predicates <- lift (Py.getitem (PDict (properties request)) "Updates") ;;
       new_predicates <- lift (Py.iter new_predicates) ;;
       match_new_predicates new_predicates old_predicates [] []
     else
       ret (Some (old_predicates, [], []))) ;;
  match matched with
  | None => ret None
  | Some (old_predicates, deletes, inserts) =>
      remaining <- lift (Py.iter old_predicates) ;;
      ret (Some (deletes ++ map delete_entry remaining, inserts))
  end.

(** Lines 125 to 142 of [update]: build the payload and send it. *)
Definition submit (deletes inserts : list pyval) : M unit :=
  rule <- get_physical_resource_id ;;
  let updates := [("RuleId", rule)] in
  rate_limit <- lift (Py.getitem (PDict (properties request)) "RateLimit") ;;
  let updates := Py.dict_set updates "RateLimit" rate_limit in
  let updates := Py.dict_set updates "Updates" (PList [PList deletes; PList inserts]) in
  try_except_ClientError
    (change_token <- client_get_change_token ;;
     let updates := Py.dict_set updates "ChangeToken" (PStr change_token) in
     response <- client_update_rate_based_rule updates ;;
     status <- wait_for response ;;
     ok <- status_getitem status status_Success ;;
     if ok then
       success (Some (Literal "Update is done."))
     else
       reason <- status_getitem status status_Reason ;;
       fail reason)
    (fun error => fail (ErrorText error)).

Definition update (remove_all : bool) : M unit :=
  reconciled <- reconcile remove_all ;;
  match reconciled with
  | None => ret tt
  | Some (deletes, inserts) => submit deletes inserts
  end.

(** *** [create] *)

Definition create : M unit :=
  let kwargs := properties request in
  try_except_ClientError
    (let kwargs := Py.dict_remove kwargs "ServiceToken" in
     let kwargs := Py.dict_remove kwargs "MatchPredicates" in
     change_token <- client_get_change_token ;;
     let kwargs := Py.dict_set kwargs "ChangeToken" (PStr change_token) in
     response <- client_create_rate_based_rule kwargs ;;
     set_physical_resource_id (PStr (rule_id response)) ;;
     status <- wait_for (create_change_token response) ;;
     ok <- status_getitem status status_Success ;;
     if ok then
       if Py.dict_mem (properties request) "Updates" then
         update false ;;
         ok <- status_getitem status status_Success ;;
         if ok then
           success (Some (Literal "Create and update are done."))
         else
           ret tt
       else
         success (Some (Literal "Create is done."))
     else
       reason <- status_getitem status status_Reason ;;
       fail reason)
    (fun error =>
       set_physical_resource_id (PStr "failed-to-create") ;;
       fail (ErrorText error)).

(** *** [delete] *)

Definition delete : M unit :=
  update true ;;
  rule <- get_physical_resource_id ;;
  let delete_request := [("RuleId", rule)] in
  try_except_ClientError
    (change_token <- client_get_change_token ;;
     let delete_request :=
       Py.dict_set delete_request "ChangeToken" (PStr change_token) in
     response <- client_delete_rate_based_rule delete_request ;;
     status <- wait_for response ;;
     ok <- status_getitem status status_Success ;;
     if ok then
       success (Some (Literal "Delete is done."))
     else
       reason <- status_getitem status status_Reason ;;
       fail reason)
    (fun error =>
       if Py.contains (error_message error) "WAFNonexistentItemException" then
         success None
       else
         fail (ErrorText error)).

End Provider.

(** ** Runs of [wait_on_status] *)

(** The world after the [except ClientError] branches that mark the
    resource: the identity is the marker and the failure is signalled. *)
Definition marked_failed (w : World) (error : client_error) : World :=
  with_signal (with_physical_resource_id w (PStr "failed-to-create"))
              (Fail (ErrorText error)).

Definition in_sync : StatusRecord := mkStatus true (Literal "").

Definition out_of_retries (max_retries : Z) : StatusRecord :=
  mkStatus false (MaxRetriesReached max_retries).

(** One run of [wait_on_status], as a derivation: each constructor is one
    way out of the body, and [poll_retry] is the recursive call. *)
Inductive polling (client : Service) (change_token : string)
  : Z -> Z -> Z -> Z -> World -> result (option StatusRecord) -> World -> Prop :=
| poll_fault current_retry interval max_interval max_retries w error :
    svc_get_change_token_status client (calls w) change_token = Fault error ->
    polling client change_token current_retry interval max_interval max_retries w
      (Ok None)
      (marked_failed (with_call w (GetChangeTokenStatus change_token)) error)
| poll_in_sync current_retry interval max_interval max_retries w :
    svc_get_change_token_status client (calls w) change_token = Reply "INSYNC" ->
    polling client change_token current_retry interval max_interval max_retries w
      (Ok (Some in_sync))
      (with_call w (GetChangeTokenStatus change_token))
| poll_out_of_retries current_retry interval max_interval max_retries w status :
    svc_get_change_token_status client (calls w) change_token = Reply status ->
    status <> "INSYNC" ->
    current_retry >= max_retries ->
    polling client change_token current_retry interval max_interval max_retries w
      (Ok (Some (out_of_retries max_retries)))
      (with_call w (GetChangeTokenStatus change_token))
| poll_abort current_retry interval max_interval max_retries w name :
    svc_get_change_token_status client (calls w) change_token = Abort name ->
    polling client change_token current_retry interval max_interval max_retries w
      (Raise (BotoCoreError name))
      (with_call w (GetChangeTokenStatus change_token))
| poll_no_sleep current_retry interval max_interval max_retries w status e :
    svc_get_change_token_status client (calls w) change_token = Reply status ->
    status <> "INSYNC" ->
    current_retry < max_retries ->
    sleep_error interval = Some e ->
    polling client change_token current_retry interval max_interval max_retries w
      (Raise e)
      (with_call w (GetChangeTokenStatus change_token))
| poll_retry current_retry interval max_interval max_retries w status r w' :
    svc_get_change_token_status client (calls w) change_token = Reply status ->
    status <> "INSYNC" ->
    current_retry < max_retries ->
    sleep_error interval = None ->
    polling client change_token (current_retry + 1)
      (Z.min (interval + interval) max_interval)
      default_max_interval default_max_retries
      (with_sleep (with_call w (GetChangeTokenStatus change_token)) interval)
      r w' ->
    polling client change_token current_retry interval max_interval max_retries w
      r w'.

(** A service on which no change ever settles. *)
Definition never_in_sync (client : Service) : Prop :=
  forall log change_token,
    exists status,
      svc_get_change_token_status client log change_token = Reply status /\
      status <> "INSYNC".

(** The intervals slept by [polls] retries in a row, from the arguments of
    the first call on. *)
Fixpoint intervals (polls : nat) (interval max_interval : Z) : list Z :=
  match polls with
  | O => []
  | S polls' =>
      interval :: intervals polls' (Z.min (interval + interval) max_interval)
                            default_max_interval
  end.

(** The retry budget the failure message names: that of the call that
    gives up. *)
Definition budget_named (current_retry max_retries : Z) : Z :=
  if Z_ge_dec current_retry max_retries then max_retries else default_max_retries.

(** ** Views used in the statements *)

(** What a handler does with the result of [wait_on_status]: it reads
    ['Success'] (which [None] does not have), then signals success with
    its own message or failure with the ['Reason']. *)
Definition after_wait (done : string)
    (waited : result (option StatusRecord) * World) : result unit * World :=
  match waited with
  | (Ok (Some status), w) =>
      if status_Success status then
        (Ok tt, with_signal w (Success (Some (Literal done))))
      else
        (Ok tt, with_signal w (Fail (status_Reason status)))
  | (Ok None, w) => (Raise TypeError, w)
  | (Raise e, w) => (Raise e, w)
  end.

(** The keyword arguments of the three mutating calls, as the handlers
    build them. *)
Definition create_kwargs (request : Request) (change_token : string) : pydict :=
  Py.dict_set
    (Py.dict_remove (Py.dict_remove (properties request) "ServiceToken")
                    "MatchPredicates")
    "ChangeToken" (PStr change_token).

Definition update_kwargs (rule rate_limit : pyval) (deletes inserts : list pyval)
    (change_token : string) : pydict :=
  [("RuleId", rule);
   ("RateLimit", rate_limit);
   ("Updates", PList [PList deletes; PList inserts]);
   ("ChangeToken", PStr change_token)].

Definition delete_kwargs (rule : pyval) (change_token : string) : pydict :=
  [("RuleId", rule); ("ChangeToken", PStr change_token)].

(** The world in which [create] starts to wait. *)
Definition created (w : World) (kwargs : pydict) (response : CreateResponse) : World :=
  with_physical_resource_id
    (with_call (with_call w GetChangeToken) (CreateRateBasedRule kwargs))
    (PStr (rule_id response)).

(** A step that only ever adds to the call log. *)
Definition appends {A : Type} (m : M A) : Prop :=
  forall w, exists more, calls (snd (m w)) = calls w ++ more.

(** A step whose exceptions all satisfy [P]. *)
Definition raises_within {A : Type} (P : exn -> Prop) (m : M A) : Prop :=
  forall w e, fst (m w) = Raise e -> P e.

(** The exceptions of the handlers' own Python code. *)
Definition local_exn (e : exn) : Prop :=
  match e with
  | TypeError | KeyError _ | AttributeError => True
  | _ => False
  end.

(** The exceptions that can leave a handler: its own, and those of the
    client that are not a [ClientError]. *)
Definition handler_exn (e : exn) : Prop :=
  match e with
  | TypeError | KeyError _ | AttributeError | BotoCoreError _ => True
  | _ => False
  end.

(** The same inside a [try] that catches [ClientError]: everything but an
    exception of [time.sleep]. *)
Definition not_from_sleep (e : exn) : Prop :=
  match e with
  | ValueError | OverflowError | OSError => False
  | _ => True
  end.

(** The size of a value: a list or a dict is bigger than each value in it. *)
Fixpoint py_size (v : pyval) : nat :=
  match v with
  | PList xs =>
      S ((fix total (xs : list pyval) : nat :=
            match xs with
            | [] => 0
            | x :: xs' => py_size x + total xs'
            end) xs)
  | PDict kvs =>
      S ((fix total (kvs : list (string * pyval)) : nat :=
            match kvs with
            | [] => 0
            | (_, x) :: kvs' => py_size x + total kvs'
            end) kvs)
  | _ => 1
  end%nat.

(** ** Scenarios *)

Module Scenario.

Definition fresh : World := mkWorld PNone [] [] [].

(** A service that accepts every call and never settles a change. *)
Definition pending : Service :=
  mkService (fun _ => Reply "token")
            (fun _ _ => Reply (mkCreateResponse "rule-1" "token-created"))
            (fun _ _ => Reply "token-updated")
            (fun _ _ => Reply "token-deleted")
            (fun _ _ => Reply "PENDING").

(** A service that accepts every call and settles every change at once. *)
Definition settled : Service :=
  mkService (fun _ => Reply "token")
            (fun _ _ => Reply (mkCreateResponse "rule-1" "token-created"))
            (fun _ _ => Reply "token-updated")
            (fun _ _ => Reply "token-deleted")
            (fun _ _ => Reply "INSYNC").

Definition throttled : client_error :=
  mkClientError
    "An error occurred (Throttling) when calling the GetChangeTokenStatus operation: Rate exceeded"
    "Rate exceeded"
    "Throttling".

(** The error by which the service says that a rule is not there: the
    name is its code, and its message is this sentence. *)
Definition nonexistent : client_error :=
  mkClientError
    "An error occurred (WAFNonexistentItemException) when calling the DeleteRateBasedRule operation: The referenced item does not exist."
    "The referenced item does not exist."
    "WAFNonexistentItemException".


(** Like [settled], but the rule is gone: update and delete both say so. *)
Definition rule_gone : Service :=
  mkService (fun _ => Reply "token")
            (fun _ _ => Reply (mkCreateResponse "rule-1" "token-created"))
            (fun _ _ => Fault nonexistent)
            (fun _ _ => Fault nonexistent)
            (fun _ _ => Reply "INSYNC").


Definition predicate (negated : bool) (type data_id : string) : pyval :=
  PDict [("Negated", PBool negated); ("Type", PStr type); ("DataId", PStr data_id)].

Definition ip_a : pyval := predicate false "IPMatch" "a".
Definition ip_b : pyval := predicate false "IPMatch" "b".
Definition ip_b_negated : pyval := predicate true "IPMatch" "b".

(** A predicate without its ["Type"]. *)
Definition untyped_c : pyval :=
  PDict [("Negated", PBool false); ("DataId", PStr "c")].

Definition rule_properties : pydict :=
  [("Name", PStr "R1"); ("MetricName", PStr "M1"); ("RateKey", PStr "IP");
   ("RateLimit", PInt 2000)].

(** Create with no predicates. *)
Definition plain_request : Request := mkRequest rule_properties [].

(** One new predicate, nothing there before. *)
Definition one_insert : Request :=
  mkRequest (rule_properties ++ [("Updates", PList [ip_a])]) [].

(** A complete predicate, then one without its type; nothing there
    before. *)
Definition untyped_second : Request :=
  mkRequest (rule_properties ++ [("Updates", PList [ip_a; untyped_c])]) [].

(** The same update when the rule had a predicate list before. *)
Definition untyped_second_after_list : Request :=
  mkRequest (rule_properties ++ [("Updates", PList [ip_a; untyped_c])])
            (rule_properties ++ [("MatchPredicates", PList [ip_b])]).

(** A delete of a rule that had two predicates. *)
Definition two_previous : Request :=
  mkRequest rule_properties
            (rule_properties ++ [("MatchPredicates", PList [ip_a; ip_b])]).

End Scenario.

(** Further services and requests. *)
Module Case.

(** The status checks in a call log. *)
Definition checks_in (log : list Call) : nat :=
  length (filter (fun c => match c with GetChangeTokenStatus _ => true | _ => false end)
                 log).

(** A service that accepts every call and settles a change once [polls]
    status checks have been made. *)
Definition settling (polls : nat) : Service :=
  mkService (fun _ => Reply "token")
            (fun _ _ => Reply (mkCreateResponse "rule-1" "token-created"))
            (fun _ _ => Reply "token-updated")
            (fun _ _ => Reply "token-deleted")
            (fun log _ =>
               if (checks_in log <? polls)%nat then Reply "PENDING"
               else Reply "INSYNC").

(** Like [Scenario.settled], but the update call is refused. *)
Definition update_refused : Service :=
  mkService (fun _ => Reply "token")
            (fun _ _ => Reply (mkCreateResponse "rule-1" "token-created"))
            (fun _ _ => Fault Scenario.throttled)
            (fun _ _ => Reply "token-deleted")
            (fun _ _ => Reply "INSYNC").

(** Like [Scenario.settled], but the client does not take the keyword
    arguments of the update call, as botocore does not when ['Updates'] is
    not a list of entries. *)
Definition update_invalid : Service :=
  mkService (fun _ => Reply "token")
            (fun _ _ => Reply (mkCreateResponse "rule-1" "token-created"))
            (fun _ _ => Abort "ParamValidationError")
            (fun _ _ => Reply "token-deleted")
            (fun _ _ => Reply "INSYNC").

(** Like [Scenario.settled], but the delete call is refused. *)
Definition delete_refused : Service :=
  mkService (fun _ => Reply "token")
            (fun _ _ => Reply (mkCreateResponse "rule-1" "token-created"))
            (fun _ _ => Reply "token-updated")
            (fun _ _ => Fault Scenario.throttled)
            (fun _ _ => Reply "INSYNC").

(** Like [Scenario.settled], but no change token is handed out. *)
Definition no_token : Service :=
  mkService (fun _ => Fault Scenario.throttled)
            (fun _ _ => Reply (mkCreateResponse "rule-1" "token-created"))
            (fun _ _ => Reply "token-updated")
            (fun _ _ => Reply "token-deleted")
            (fun _ _ => Reply "INSYNC").

(** An update that asks for no predicate at all, on a rule that had two. *)
Definition none_requested : Request :=
  mkRequest (Scenario.rule_properties ++ [("Updates", PList [])])
            (Scenario.rule_properties
               ++ [("MatchPredicates", PList [Scenario.ip_a; Scenario.ip_b])]).

(** Two new predicates, nothing there before. *)
Definition two_inserts : Request :=
  mkRequest (Scenario.rule_properties
               ++ [("Updates", PList [Scenario.ip_a; Scenario.ip_b])]) [].

(** A request without its ['RateLimit']. *)
Definition no_rate_limit : Request :=
  mkRequest [("Name", PStr "R1"); ("MetricName", PStr "M1"); ("RateKey", PStr "IP")]
            [].

(** A create request as CloudFormation sends it, with the service token
    and the two predicate properties. *)
Definition full_request : Request :=
  mkRequest
    ([("ServiceToken", PStr "arn:aws:lambda:eu-west-1:123456789012:function:provider")]
       ++ Scenario.rule_properties
       ++ [("MatchPredicates", PList [Scenario.ip_b]);
           ("Updates", PList [Scenario.ip_a])])
    [].

End Case.

(** * Properties *)

(** ** The monad and the world *)

Lemma try_except_never_ClientError {A : Type} (body : M A)
    (handler : client_error -> M A) :
  (forall error w e, fst (handler error w) <> Raise (ClientError e)) ->
  forall w e, fst (try_except_ClientError body handler w) <> Raise (ClientError e).
Proof.
  intros Hhandler w e. unfold try_except_ClientError.
  destruct (body w) as [[a | [e' | | k | | | | | name]] w']; cbn; try discriminate.
  apply Hhandler.
Qed.



Lemma reported_with_signal w s : reported (with_signal w s) = Some s.
Proof.
  unfold reported, with_signal; cbn.
  rewrite map_app; cbn. apply last_last.
Qed.



(** ** [wait_on_status] *)

Section WaitFacts.

Variable client : Service.

Lemma wait_on_status_never_ClientError tok cr i mi mr w e :
  fst (wait_on_status client tok cr i mi mr w) <> Raise (ClientError e).
Proof.
  rewrite (wait_on_status_equation_1 client tok cr i mi mr).
  apply try_except_never_ClientError.
  intros; cbn; discriminate.
Qed.

(** The body of [wait_on_status], one round unfolded. *)
Lemma wait_on_status_step tok cr i mi mr w :
  wait_on_status client tok cr i mi mr w =
  let w1 := with_call w (GetChangeTokenStatus tok) in
  match svc_get_change_token_status client (calls w) tok with
  | Fault error => (Ok None, marked_failed w1 error)
  | Abort name => (Raise (BotoCoreError name), w1)
  | Reply status =>
      if String.eqb status "INSYNC" then (Ok (Some in_sync), w1)
      else if Z_ge_dec cr mr then (Ok (Some (out_of_retries mr)), w1)
      else
        match sleep_error i with
        | Some e => (Raise e, w1)
        | None =>
            wait_on_status client tok (cr + 1) (Z.min (i + i) mi)
              default_max_interval default_max_retries (with_sleep w1 i)
        end
  end.
Proof.
  rewrite (wait_on_status_equation_1 client tok cr i mi mr).
  unfold try_except_ClientError, bind, client_get_change_token_status, client_call.
  cbn zeta.
  destruct (svc_get_change_token_status client (calls w) tok)
    as [status | error | name]; [| reflexivity ..].
  destruct (String.eqb status "INSYNC"); cbn [negb]; [reflexivity |].
  destruct (Z_ge_dec cr mr); [reflexivity |].
  unfold sleep, sleep_error.
  destruct ((i <? - max_timestamp) || (max_timestamp <? i)); [reflexivity |].
  destruct (i <? 0); [reflexivity |].
  destruct (longest_sleep <? i); [reflexivity |].
  pose proof (wait_on_status_never_ClientError tok (cr + 1) (Z.min (i + i) mi)
                default_max_interval default_max_retries
                (with_sleep (with_call w (GetChangeTokenStatus tok)) i)) as Hno.
  destruct (wait_on_status client tok (cr + 1) (Z.min (i + i) mi)
              default_max_interval default_max_retries
              (with_sleep (with_call w (GetChangeTokenStatus tok)) i))
    as [[a | [e' | | k | | | | | name]] w']; try reflexivity.
  exfalso. apply (Hno e'). reflexivity.
Qed.

(** Induction along the recursive calls. *)
Lemma wait_on_status_ind (P : Z -> Z -> Z -> Z -> Prop) :
  (forall cr i mi mr,
      (~ cr >= mr ->
       P (cr + 1) (Z.min (i + i) mi) default_max_interval default_max_retries) ->
      P cr i mi mr) ->
  forall cr i mi mr, P cr i mi mr.
Proof.
  intros step cr i mi mr.
  remember (polls_left cr mr) as n eqn:Hn.
  revert cr i mi mr Hn.
  induction n as [n IH] using (well_founded_induction Wf_nat.lt_wf).
  intros cr i mi mr Hn. apply step. intros Hlt.
  apply (IH (polls_left (cr + 1) default_max_retries)); [| reflexivity].
  subst n. unfold polls_left, default_max_retries.
  destruct (Z_ge_dec cr mr); [contradiction |].
  destruct (Z_ge_dec (cr + 1) 15); lia.
Qed.

(** Every call of [wait_on_status] is a run. *)
Lemma wait_on_status_polling tok cr i mi mr w :
  polling client tok cr i mi mr w
    (fst (wait_on_status client tok cr i mi mr w))
    (snd (wait_on_status client tok cr i mi mr w)).
Proof.
  revert w. pattern cr, i, mi, mr. apply wait_on_status_ind.
  clear cr i mi mr. intros cr i mi mr IH w.
  rewrite wait_on_status_step. cbn zeta.
  destruct (svc_get_change_token_status client (calls w) tok)
    as [status | error | name] eqn:Hsvc.
  - destruct (String.eqb_spec status "INSYNC") as [-> | Hne].
    + now apply poll_in_sync.
    + destruct (Z_ge_dec cr mr) as [Hge | Hlt].
      * now apply poll_out_of_retries with status.
      * destruct (sleep_error i) as [e |] eqn:Hsleep.
        -- apply poll_no_sleep with status; auto; lia.
        -- apply poll_retry with status; auto; lia.
  - now apply poll_fault.
  - now apply poll_abort.
Qed.

(** The lengths [time.sleep] takes. *)
Lemma sleep_error_none i : sleep_error i = None <-> 0 <= i <= longest_sleep.
Proof.
  unfold sleep_error.
  destruct (i <? - max_timestamp) eqn:Hlow, (max_timestamp <? i) eqn:Hhigh,
    (i <? 0) eqn:Hneg, (longest_sleep <? i) eqn:Hlong;
    cbn [orb]; split; intros Hrange; try discriminate; try reflexivity;
    rewrite ?Z.ltb_lt, ?Z.ltb_ge in *;
    unfold max_timestamp, longest_sleep in *; lia.
Qed.

Lemma polls_left_retry cr mr :
  cr < mr -> polls_left cr mr = S (polls_left (cr + 1) default_max_retries).
Proof.
  intros Hlt. unfold polls_left, default_max_retries.
  destruct (Z_ge_dec cr mr); [lia |].
  destruct (Z_ge_dec (cr + 1) 15); [| f_equal]; lia.
Qed.

End WaitFacts.

(** *** Runs on a service that never settles *)

Section NeverInSync.

Variable client : Service.
Hypothesis Hpending : never_in_sync client.

Lemma budget_named_default cr :
  budget_named cr default_max_retries = default_max_retries.
Proof. unfold budget_named. destruct (Z_ge_dec cr default_max_retries); reflexivity. Qed.

Lemma wait_on_status_never_in_sync tok cr i mi mr :
  0 <= i <= longest_sleep -> 0 <= mi <= longest_sleep ->
  forall w,
    wait_on_status client tok cr i mi mr w =
    (Ok (Some (out_of_retries (budget_named cr mr))),
     mkWorld (physical_resource_id w) (signals w)
             (calls w ++ repeat (GetChangeTokenStatus tok) (S (polls_left cr mr)))
             (sleeps w ++ intervals (polls_left cr mr) i mi)).
Proof.
  pattern cr, i, mi, mr. apply wait_on_status_ind.
  clear cr i mi mr. intros cr i mi mr IH Hi Hmi w.
  rewrite wait_on_status_step. cbn zeta.
  destruct (Hpending (calls w) tok) as [status [-> Hne]].
  apply String.eqb_neq in Hne. rewrite Hne.
  unfold budget_named.
  destruct (Z_ge_dec cr mr) as [Hge | Hlt].
  - unfold polls_left. destruct (Z_ge_dec cr mr); [| contradiction].
    cbn. rewrite app_nil_r. reflexivity.
  - rewrite (proj2 (sleep_error_none i) Hi).
    rewrite IH;
      try assumption; try (unfold default_max_interval, longest_sleep in *; lia).
    rewrite (polls_left_retry cr mr) by lia.
    rewrite budget_named_default.
    generalize (polls_left (cr + 1) default_max_retries); intros n.
    cbn [repeat intervals with_sleep with_call calls sleeps
         physical_resource_id signals].
    rewrite <- !app_assoc. reflexivity.
Qed.

End NeverInSync.

Lemma status_checks_repeat p s c l tok n :
  status_checks (mkWorld p s (c ++ repeat (GetChangeTokenStatus tok) n) l)
  = (status_checks (mkWorld p s c l) + n)%nat.
Proof.
  unfold status_checks; cbn. rewrite filter_app, length_app. f_equal.
  induction n as [| n IH]; cbn; [reflexivity | now rewrite IH].
Qed.

(** With the default budget, a change that never settles is given up
    after [max_retries + 1] status checks. *)
Lemma wait_for_never_in_sync client tok w :
  never_in_sync client ->
  fst (wait_for client tok w) = Ok (Some (out_of_retries default_max_retries)) /\
  status_checks (snd (wait_for client tok w))
  = (status_checks w + Z.to_nat (default_max_retries + 1))%nat.
Proof.
  intros Hpending. unfold wait_for.
  rewrite (wait_on_status_never_in_sync client Hpending)
    by (unfold default_interval, default_max_interval, longest_sleep; lia).
  cbn [fst snd]. rewrite status_checks_repeat. split; [reflexivity |].
  destruct w; reflexivity.
Qed.

(** A retry runs [wait_on_status] again with the interval doubled and
    capped by [max_interval], and with the default cap and budget from
    then on. *)
Lemma wait_on_status_retry client tok cr i mi mr w status :
  svc_get_change_token_status client (calls w) tok = Reply status ->
  status <> "INSYNC" ->
  cr < mr ->
  0 <= i <= longest_sleep ->
  wait_on_status client tok cr i mi mr w =
  wait_on_status client tok (cr + 1) (Z.min (2 * i) mi)
    default_max_interval default_max_retries
    (with_sleep (with_call w (GetChangeTokenStatus tok)) i).
Proof.
  intros Hsvc Hne Hlt Hi. rewrite wait_on_status_step. cbn zeta. rewrite Hsvc.
  apply String.eqb_neq in Hne. rewrite Hne.
  destruct (Z_ge_dec cr mr); [lia |].
  rewrite (proj2 (sleep_error_none i) Hi).
  replace (2 * i) with (i + i) by lia. reflexivity.
Qed.

(** Under the default cap an interval that has reached it stays there. *)
Lemma intervals_at_default_cap n :
  intervals n default_max_interval default_max_interval
  = repeat default_max_interval n.
Proof.
  induction n as [| n IH]; cbn [intervals repeat]; [reflexivity |].
  replace (Z.min (default_max_interval + default_max_interval) default_max_interval)
    with default_max_interval by (unfold default_max_interval; lia).
  now rewrite IH.
Qed.

(** ** Runs, by induction on the derivation *)


Lemma polling_extends client tok cr i mi mr w r w' :
  polling client tok cr i mi mr w r w' ->
  exists more, calls w' = calls w ++ GetChangeTokenStatus tok :: more.
Proof.
  induction 1 as [? ? ? ? w error _ | ? ? ? ? w _ | ? ? ? ? w status _ _ _
                 | ? ? ? ? w name _ | ? ? ? ? w status e _ _ _ _
                 | ? ? ? ? w status r w' _ _ _ _ _ [more IH]];
    try (exists []; reflexivity).
  exists (GetChangeTokenStatus tok :: more).
  rewrite IH. cbn. rewrite <- app_assoc. reflexivity.
Qed.


(** A run returns a record with ['Success'] true exactly when its last
    status check was answered with INSYNC. *)
Lemma polling_success client tok cr i mi mr w r w' :
  polling client tok cr i mi mr w r w' ->
  exists log,
    calls w' = log ++ [GetChangeTokenStatus tok] /\
    forall record,
      r = Ok (Some record) ->
      (status_Success record = true <->
       svc_get_change_token_status client log tok = Reply "INSYNC").
Proof.
  induction 1 as [? ? ? ? w error Hsvc | ? ? ? ? w Hsvc | ? ? ? ? w status Hsvc Hne _
                 | ? ? ? ? w name Hsvc | ? ? ? ? w status e Hsvc Hne _ _
                 | ? ? ? ? w status r w' _ _ _ _ _ IH];
    try (exists (calls w); split; [reflexivity |];
         intros record [= <-]; cbn; split; intros Heq;
         try discriminate; congruence).
  assumption.
Qed.

(** [wait_on_status] returns a record with ['Success'] true exactly when
    its last status check was answered with INSYNC. *)
Lemma wait_on_status_success_iff_in_sync client tok cr i mi mr w :
  exists log,
    calls (snd (wait_on_status client tok cr i mi mr w))
    = log ++ [GetChangeTokenStatus tok] /\
    forall record,
      fst (wait_on_status client tok cr i mi mr w) = Ok (Some record) ->
      (status_Success record = true <->
       svc_get_change_token_status client log tok = Reply "INSYNC").
Proof. eapply polling_success. apply wait_on_status_polling. Qed.

(** A change that settles within the polls left is waited for: the first
    INSYNC answer ends the wait with success, after one status check more
    than the answers before it. *)
Lemma wait_on_status_settles client tok n :
  forall cr i mi mr w,
    (n <= polls_left cr mr)%nat ->
    0 <= i <= longest_sleep -> 0 <= mi <= longest_sleep ->
    (forall k, (k < n)%nat ->
       exists status,
         svc_get_change_token_status client
           (calls w ++ repeat (GetChangeTokenStatus tok) k) tok = Reply status /\
         status <> "INSYNC") ->
    svc_get_change_token_status client
      (calls w ++ repeat (GetChangeTokenStatus tok) n) tok = Reply "INSYNC" ->
    wait_on_status client tok cr i mi mr w =
    (Ok (Some in_sync),
     mkWorld (physical_resource_id w) (signals w)
             (calls w ++ repeat (GetChangeTokenStatus tok) (S n))
             (sleeps w ++ intervals n i mi)).
Proof.
  induction n as [| n IH]; intros cr i mi mr w Hn Hi Hmi Hbefore Hnow.
  - rewrite wait_on_status_step. cbn zeta.
    cbn [repeat] in Hnow. rewrite app_nil_r in Hnow. rewrite Hnow.
    cbn. rewrite app_nil_r. reflexivity.
  - rewrite wait_on_status_step. cbn zeta.
    destruct (Hbefore 0%nat) as [status [Hsvc Hne]]; [lia |].
    cbn [repeat] in Hsvc. rewrite app_nil_r in Hsvc. rewrite Hsvc.
    apply String.eqb_neq in Hne. rewrite Hne.
    assert (Hlt : cr < mr).
    { unfold polls_left in Hn. destruct (Z_ge_dec cr mr); lia. }
    destruct (Z_ge_dec cr mr); [lia |].
    rewrite (proj2 (sleep_error_none i) Hi).
    rewrite (polls_left_retry cr mr Hlt) in Hn.
    rewrite (IH (cr + 1) (Z.min (i + i) mi) default_max_interval
                default_max_retries); try lia.
    + cbn [repeat intervals with_sleep with_call calls sleeps
           physical_resource_id signals].
      rewrite <- !app_assoc. reflexivity.
    + unfold default_max_interval, longest_sleep. lia.
    + intros k Hk. destruct (Hbefore (S k)) as [status' [Hsvc' Hne']]; [lia |].
      exists status'. split; [| assumption].
      cbn [with_sleep with_call calls]. rewrite <- app_assoc. exact Hsvc'.
    + cbn [with_sleep with_call calls]. rewrite <- app_assoc. exact Hnow.
Qed.

(** ** The reconciler *)

(** [find_old_predicate] looks at the head of what the loop visits and at
    nothing else. *)
Lemma find_old_predicate_head new_pred old_preds first rest :
  Py.iter old_preds = Ok (first :: rest) ->
  find_old_predicate new_pred old_preds
  = find_old_predicate new_pred (PList [first]).
Proof. intros Hiter. unfold find_old_predicate. rewrite Hiter. reflexivity. Qed.


(** With nothing there before, a complete predicate is an insert and the
    loop goes on. *)
Lemma match_new_predicates_no_previous new_predicate rest deletes inserts :
  missing_fields new_predicate = Ok [] ->
  match_new_predicates (new_predicate :: rest) (PDict []) deletes inserts
  = match_new_predicates rest (PDict []) deletes
      (inserts ++ [insert_entry new_predicate]).
Proof.
  intros Hmissing. cbn [match_new_predicates].
  unfold bind, lift. rewrite Hmissing. reflexivity.
Qed.

(** The first predicate with a missing field stops [update]: the failure
    is signalled and the loop returns. *)
Lemma match_new_predicates_missing new_predicate rest old deletes inserts m ms w :
  missing_fields new_predicate = Ok (m :: ms) ->
  match_new_predicates (new_predicate :: rest) old deletes inserts w
  = (Ok None, with_signal w (Fail (MissingFields new_predicate (m :: ms)))).
Proof.
  intros Hmissing. cbn [match_new_predicates].
  unfold bind, lift. rewrite Hmissing. reflexivity.
Qed.

Lemma match_new_predicates_no_previous_stops complete incomplete rest m ms :
  Forall (fun p => missing_fields p = Ok []) complete ->
  missing_fields incomplete = Ok (m :: ms) ->
  forall deletes inserts w,
    match_new_predicates (complete ++ incomplete :: rest) (PDict []) deletes inserts w
    = (Ok None, with_signal w (Fail (MissingFields incomplete (m :: ms)))).
Proof.
  intros Hcomplete Hmissing.
  induction Hcomplete as [| p complete Hp _ IH]; intros deletes inserts w.
  - now apply match_new_predicates_missing.
  - cbn [app]. rewrite match_new_predicates_no_previous by assumption. apply IH.
Qed.

(** The loop never touches the service, and it leaves the world as it is
    except for the one failure it may signal. *)
Lemma match_new_predicates_world new_predicates :
  forall old deletes inserts w,
    let '(r, w') := match_new_predicates new_predicates old deletes inserts w in
    match r with
    | Ok (Some _) | Raise _ => w' = w
    | Ok None => exists p missing, w' = with_signal w (Fail (MissingFields p missing))
    end.
Proof.
  induction new_predicates as [| p rest IH]; intros old deletes inserts w.
  - reflexivity.
  - cbn [match_new_predicates]. unfold bind, lift.
    destruct (missing_fields p) as [[| m ms] | e]; [| | reflexivity].
    + destruct (find_old_predicate p old) as [found | e]; [| reflexivity].
      destruct (Py.pop_default old found) as [old' | e]; [| reflexivity].
      destruct (negb (Py.is_none found) && negb (Py.eqb p found));
        [apply IH |].
      destruct (Py.is_none found); apply IH.
    + cbn. eauto.
Qed.

(** A list with an incomplete predicate never gets through the loop. *)
Lemma match_new_predicates_incomplete new_predicates :
  Exists (fun p => exists m ms, missing_fields p = Ok (m :: ms)) new_predicates ->
  forall old deletes inserts w found,
    fst (match_new_predicates new_predicates old deletes inserts w) <> Ok (Some found).
Proof.
  induction new_predicates as [| p rest IH]; intros Hex old deletes inserts w found.
  - inversion Hex.
  - cbn [match_new_predicates]. unfold bind, lift.
    destruct (missing_fields p) as [[| m ms] | e] eqn:Hp; [| cbn; discriminate ..].
    assert (Hrest : Exists (fun p => exists m ms, missing_fields p = Ok (m :: ms)) rest).
    { inversion Hex as [? ? [m [ms Hm]] | ? ? Hrest]; subst; [congruence | assumption]. }
    destruct (find_old_predicate p old) as [found' | e]; [| cbn; discriminate].
    destruct (Py.pop_default old found') as [old' | e]; [| cbn; discriminate].
    destruct (negb (Py.is_none found') && negb (Py.eqb p found'));
      [now apply IH |].
    destruct (Py.is_none found'); now apply IH.
Qed.

(** ** The handlers, step by step *)
Lemma bind_ok {A B : Type} (m : M A) (k : A -> M B) w a w' :
  m w = (Ok a, w') -> bind m k w = k a w'.
Proof. intros Hm. unfold bind. now rewrite Hm. Qed.


Lemma client_call_reply {A : Type} (c : Call) (answer : list Call -> reply A) w a :
  answer (calls w) = Reply a -> client_call c answer w = (Ok a, with_call w c).
Proof. intros Ha. unfold client_call. now rewrite Ha. Qed.

Lemma client_call_fault {A : Type} (c : Call) (answer : list Call -> reply A) w e :
  answer (calls w) = Fault e ->
  client_call c answer w = (Raise (ClientError e), with_call w c).
Proof. intros Ha. unfold client_call. now rewrite Ha. Qed.


Lemma client_call_abort {A : Type} (c : Call) (answer : list Call -> reply A) w name :
  answer (calls w) = Abort name ->
  client_call c answer w = (Raise (BotoCoreError name), with_call w c).
Proof. intros Ha. unfold client_call. now rewrite Ha. Qed.

Lemma try_bind_ok {A B : Type} (m : M A) (k : A -> M B)
    (handler : client_error -> M B) w a w' :
  m w = (Ok a, w') ->
  try_except_ClientError (bind m k) handler w
  = try_except_ClientError (k a) handler w'.
Proof. intros Hm. unfold try_except_ClientError, bind. now rewrite Hm. Qed.

Lemma try_bind_fault {A B : Type} (m : M A) (k : A -> M B)
    (handler : client_error -> M B) w e w' :
  m w = (Raise (ClientError e), w') ->
  try_except_ClientError (bind m k) handler w = handler e w'.
Proof. intros Hm. unfold try_except_ClientError, bind. now rewrite Hm. Qed.

(** An exception of the client that is not a [ClientError] passes the
    [try]. *)
Lemma try_bind_abort {A B : Type} (m : M A) (k : A -> M B)
    (handler : client_error -> M B) w name w' :
  m w = (Raise (BotoCoreError name), w') ->
  try_except_ClientError (bind m k) handler w = (Raise (BotoCoreError name), w').
Proof. intros Hm. unfold try_except_ClientError, bind. now rewrite Hm. Qed.

Section HandlerFacts.

Variable client : Service.
Variable request : Request.

Lemma wait_for_never_ClientError tok w e :
  fst (wait_for client tok w) <> Raise (ClientError e).
Proof. apply wait_on_status_never_ClientError. Qed.

(** The tail the three handlers share: wait, then read ['Success'] and
    signal.  No [ClientError] leaves [wait_on_status], so the handler of
    the enclosing [try] is never entered from here. *)
Lemma wait_then_signal done tok (handler : client_error -> M unit) w :
  try_except_ClientError
    (status <- wait_for client tok ;;
     ok <- status_getitem status status_Success ;;
     if ok then success (Some (Literal done))
     else (reason <- status_getitem status status_Reason ;; fail reason))
    handler w
  = after_wait done (wait_for client tok w).
Proof.
  pose proof (wait_for_never_ClientError tok w) as Hno.
  unfold try_except_ClientError, bind.
  destruct (wait_for client tok w) as [[[[ok reason] |] | e] w'];
    cbn [after_wait status_getitem status_Success status_Reason ret raise].
  - destruct ok; reflexivity.
  - reflexivity.
  - destruct e as [e | | | | | | |]; try reflexivity.
    exfalso. now apply (Hno e).
Qed.

(** [submit], once the rate limit is there and the change token came. *)
Lemma submit_run deletes inserts rate_limit change_token w :
  Py.dict_get (properties request) "RateLimit" = Some rate_limit ->
  svc_get_change_token client (calls w) = Reply change_token ->
  let kwargs := update_kwargs (physical_resource_id w) rate_limit deletes inserts
                              change_token in
  let w2 := with_call (with_call w GetChangeToken) (UpdateRateBasedRule kwargs) in
  submit client request deletes inserts w =
  match svc_update_rate_based_rule client (calls w ++ [GetChangeToken]) kwargs with
  | Reply response => after_wait "Update is done." (wait_for client response w2)
  | Fault error => (Ok tt, with_signal w2 (Fail (ErrorText error)))
  | Abort name => (Raise (BotoCoreError name), w2)
  end.
Proof.
  intros Hrate Htoken kwargs w2.
  unfold submit.
  rewrite (bind_ok _ _ w (physical_resource_id w) w) by reflexivity.
  rewrite (bind_ok _ _ w rate_limit w)
    by (unfold lift; cbn [Py.getitem]; now rewrite Hrate).
  rewrite (try_bind_ok _ _ _ w change_token (with_call w GetChangeToken))
    by (now apply client_call_reply).
  change (Py.dict_set _ "ChangeToken" (PStr change_token)) with kwargs.
  destruct (svc_update_rate_based_rule client (calls w ++ [GetChangeToken]) kwargs)
    as [response | error | name] eqn:Hupdate.
  - rewrite (try_bind_ok _ _ _ _ response w2)
      by (now apply client_call_reply).
    apply wait_then_signal.
  - rewrite (try_bind_fault _ _ _ _ error w2)
      by (now apply client_call_fault).
    reflexivity.
  - rewrite (try_bind_abort _ _ _ _ name w2)
      by (now apply client_call_abort).
    reflexivity.
Qed.

End HandlerFacts.

(** ** [update] *)

Section MoreHandlerFacts.

Variable client : Service.
Variable request : Request.

(** An update request with an incomplete predicate makes no call on the
    service, whatever else happens to it; and if [update] returns at all,
    it has signalled the missing fields and done nothing else. *)
Lemma update_incomplete_no_call new_predicates items w :
  Py.dict_get (properties request) "Updates" = Some new_predicates ->
  Py.iter new_predicates = Ok items ->
  Exists (fun p => exists m ms, missing_fields p = Ok (m :: ms)) items ->
  calls (snd (update client request false w)) = calls w /\
  (fst (update client request false w) = Ok tt ->
   exists p missing,
     snd (update client request false w)
     = with_signal w (Fail (MissingFields p missing))).
Proof.
  intros Hupdates Hiter Hex.
  unfold update, reconcile, bind, lift. cbn [negb Py.getitem].
  rewrite Hupdates, Hiter.
  pose proof (match_new_predicates_world items (previous_predicates request) [] [] w)
    as Hworld.
  pose proof (match_new_predicates_incomplete items Hex
                (previous_predicates request) [] [] w) as Hnot.
  destruct (match_new_predicates items (previous_predicates request) [] [] w)
    as [[[found |] | e] w'].
  - exfalso. now apply (Hnot found).
  - destruct Hworld as [p [missing ->]]. cbn. split; [reflexivity | eauto].
  - subst w'. cbn. split; [reflexivity | discriminate].
Qed.

(** With no predicates there before, the incomplete predicate is named in
    the failure. *)
Lemma update_incomplete_no_previous new_predicates complete incomplete rest m ms w :
  Py.dict_get (old_properties request) "MatchPredicates" = None ->
  Py.dict_get (properties request) "Updates" = Some new_predicates ->
  Py.iter new_predicates = Ok (complete ++ incomplete :: rest) ->
  Forall (fun p => missing_fields p = Ok []) complete ->
  missing_fields incomplete = Ok (m :: ms) ->
  update client request false w
  = (Ok tt, with_signal w (Fail (MissingFields incomplete (m :: ms)))).
Proof.
  intros Hold Hupdates Hiter Hcomplete Hmissing.
  unfold update, reconcile, previous_predicates, bind, lift. cbn [negb Py.getitem].
  rewrite Hold, Hupdates, Hiter.
  rewrite (match_new_predicates_no_previous_stops complete incomplete rest m ms)
    by assumption.
  reflexivity.
Qed.

(** Full removal: one DELETE for each previous predicate, no insert, and
    the request's ['Updates'] is not read. *)
Lemma reconcile_remove_all items w :
  Py.iter (previous_predicates request) = Ok items ->
  reconcile request true w = (Ok (Some (map delete_entry items, [])), w).
Proof.
  intros Hiter. unfold reconcile, bind, lift, ret. cbn [negb].
  rewrite Hiter. reflexivity.
Qed.

Lemma update_run remove_all deletes inserts w w1 :
  reconcile request remove_all w = (Ok (Some (deletes, inserts)), w1) ->
  update client request remove_all w = submit client request deletes inserts w1.
Proof. intros Hrec. unfold update. now rewrite (bind_ok _ _ _ _ _ Hrec). Qed.

(** ** [create] *)


Lemma create_call_fault w change_token error :
  svc_get_change_token client (calls w) = Reply change_token ->
  svc_create_rate_based_rule client (calls w ++ [GetChangeToken])
    (create_kwargs request change_token) = Fault error ->
  create client request w
  = (Ok tt,
     marked_failed
       (with_call (with_call w GetChangeToken)
                  (CreateRateBasedRule (create_kwargs request change_token)))
       error).
Proof.
  intros Htoken Hcreate. unfold create.
  rewrite (try_bind_ok _ _ _ w change_token (with_call w GetChangeToken))
    by (now apply client_call_reply).
  fold (create_kwargs request change_token).
  rewrite (try_bind_fault _ _ _ _ error
             (with_call (with_call w GetChangeToken)
                (CreateRateBasedRule (create_kwargs request change_token))))
    by (now apply client_call_fault).
  reflexivity.
Qed.

Lemma create_call_abort w change_token name :
  svc_get_change_token client (calls w) = Reply change_token ->
  svc_create_rate_based_rule client (calls w ++ [GetChangeToken])
    (create_kwargs request change_token) = Abort name ->
  create client request w
  = (Raise (BotoCoreError name),
     with_call (with_call w GetChangeToken)
               (CreateRateBasedRule (create_kwargs request change_token))).
Proof.
  intros Htoken Hcreate. unfold create.
  rewrite (try_bind_ok _ _ _ w change_token (with_call w GetChangeToken))
    by (now apply client_call_reply).
  fold (create_kwargs request change_token).
  rewrite (try_bind_abort _ _ _ _ name
             (with_call (with_call w GetChangeToken)
                (CreateRateBasedRule (create_kwargs request change_token))))
    by (now apply client_call_abort).
  reflexivity.
Qed.

Lemma create_run w change_token response :
  svc_get_change_token client (calls w) = Reply change_token ->
  svc_create_rate_based_rule client (calls w ++ [GetChangeToken])
    (create_kwargs request change_token) = Reply response ->
  create client request w =
  try_except_ClientError
    (status <- wait_for client (create_change_token response) ;;
     ok <- status_getitem status status_Success ;;
     if ok then
       if Py.dict_mem (properties request) "Updates" then
         update client request false ;;
         ok <- status_getitem status status_Success ;;
         if ok then success (Some (Literal "Create and update are done."))
         else ret tt
       else success (Some (Literal "Create is done."))
     else
       reason <- status_getitem status status_Reason ;;
       fail reason)
    (fun error =>
       set_physical_resource_id (PStr "failed-to-create") ;;
       fail (ErrorText error))
    (created w (create_kwargs request change_token) response).
Proof.
  intros Htoken Hcreate. unfold create.
  rewrite (try_bind_ok _ _ _ w change_token (with_call w GetChangeToken))
    by (now apply client_call_reply).
  fold (create_kwargs request change_token).
  rewrite (try_bind_ok _ _ _ _ response
             (with_call (with_call w GetChangeToken)
                (CreateRateBasedRule (create_kwargs request change_token))))
    by (now apply client_call_reply).
  rewrite (try_bind_ok _ _ _ _ tt
             (created w (create_kwargs request change_token) response))
    by reflexivity.
  reflexivity.
Qed.

(** ** [delete] *)

Lemma delete_run w w1 change_token :
  update client request true w = (Ok tt, w1) ->
  svc_get_change_token client (calls w1) = Reply change_token ->
  let kwargs := delete_kwargs (physical_resource_id w1) change_token in
  let w2 := with_call (with_call w1 GetChangeToken) (DeleteRateBasedRule kwargs) in
  delete client request w =
  match svc_delete_rate_based_rule client (calls w1 ++ [GetChangeToken]) kwargs with
  | Reply response => after_wait "Delete is done." (wait_for client response w2)
  | Fault error =>
      if Py.contains (error_message error) "WAFNonexistentItemException" then
        (Ok tt, with_signal w2 (Success None))
      else
        (Ok tt, with_signal w2 (Fail (ErrorText error)))
  | Abort name => (Raise (BotoCoreError name), w2)
  end.
Proof.
  intros Hupdate Htoken kwargs w2. unfold delete.
  rewrite (bind_ok _ _ _ _ _ Hupdate).
  rewrite (bind_ok _ _ w1 (physical_resource_id w1) w1) by reflexivity.
  rewrite (try_bind_ok _ _ _ w1 change_token (with_call w1 GetChangeToken))
    by (now apply client_call_reply).
  change (Py.dict_set _ "ChangeToken" (PStr change_token)) with kwargs.
  destruct (svc_delete_rate_based_rule client (calls w1 ++ [GetChangeToken]) kwargs)
    as [response | error | name] eqn:Hdelete.
  - rewrite (try_bind_ok _ _ _ _ response w2)
      by (now apply client_call_reply).
    apply wait_then_signal.
  - rewrite (try_bind_fault _ _ _ _ error w2)
      by (now apply client_call_fault).
    unfold success, fail, signal.
    destruct (Py.contains (error_message error) "WAFNonexistentItemException");
      reflexivity.
  - rewrite (try_bind_abort _ _ _ _ name w2)
      by (now apply client_call_abort).
    reflexivity.
Qed.

End MoreHandlerFacts.

(** ** Values and call logs *)
Lemma py_size_member x xs : In x xs -> (py_size x < py_size (PList xs))%nat.
Proof.
  induction xs as [| y xs IH]; intros Hin; [contradiction |].
  destruct Hin as [-> | Hin].
  - cbn. lia.
  - specialize (IH Hin). cbn in *. lia.
Qed.

(** A list is never one of its own members. *)
Lemma list_not_member xs : ~ In (PList xs) xs.
Proof. intros Hin. apply py_size_member in Hin. lia. Qed.

(** The pair of the two lists is never the one list of their entries. *)
Lemma pair_is_not_concatenation deletes inserts :
  PList [PList deletes; PList inserts] <> PList (deletes ++ inserts).
Proof.
  intros Heq. injection Heq as Heq.
  destruct deletes as [| d deletes].
  - cbn in Heq. apply (list_not_member inserts).
    assert (Hin : In (PList inserts) [PList []; PList inserts])
      by (right; left; reflexivity).
    now rewrite Heq in Hin.
  - cbn in Heq. injection Heq as Hd _.
    apply (list_not_member (d :: deletes)). left. now symmetry.
Qed.

Lemma after_wait_calls done waited :
  calls (snd (after_wait done waited)) = calls (snd waited).
Proof.
  destruct waited as [[[[ok reason] |] | e] w]; cbn; try reflexivity.
  destruct ok; reflexivity.
Qed.

Lemma wait_for_calls client tok w :
  exists more,
    calls (snd (wait_for client tok w)) = calls w ++ GetChangeTokenStatus tok :: more.
Proof.
  unfold wait_for. eapply polling_extends. apply wait_on_status_polling.
Qed.

(** What [update] sends once its two lists are built and it has a change
    token. *)
Lemma update_sends client request remove_all deletes inserts rate_limit
    change_token w w1 :
  reconcile request remove_all w = (Ok (Some (deletes, inserts)), w1) ->
  Py.dict_get (properties request) "RateLimit" = Some rate_limit ->
  svc_get_change_token client (calls w1) = Reply change_token ->
  exists more,
    calls (snd (update client request remove_all w))
    = calls w1 ++ GetChangeToken
        :: UpdateRateBasedRule
             (update_kwargs (physical_resource_id w1) rate_limit deletes inserts
                            change_token)
        :: more.
Proof.
  intros Hrec Hrate Htoken.
  rewrite (update_run client request remove_all deletes inserts w w1 Hrec).
  rewrite (submit_run client request deletes inserts rate_limit change_token w1
             Hrate Htoken).
  cbn zeta.
  destruct (svc_update_rate_based_rule client (calls w1 ++ [GetChangeToken]) _)
    as [response | error | name].
  - rewrite after_wait_calls.
    destruct (wait_for_calls client response
                (with_call (with_call w1 GetChangeToken)
                   (UpdateRateBasedRule
                      (update_kwargs (physical_resource_id w1) rate_limit deletes
                         inserts change_token)))) as [more Hmore].
    exists (GetChangeTokenStatus response :: more).
    rewrite Hmore. cbn. now rewrite <- !app_assoc.
  - exists []. cbn. now rewrite <- !app_assoc.
  - exists []. cbn. now rewrite <- !app_assoc.
Qed.

(** * The claims *)

(** C1.  The waiter is said to give up after exactly [max_retries + 1]
    status checks, for every [max_retries].  On the source it does so for
    the default budget ([wait_for_never_in_sync]) but not for any other
    positive budget: the recursive call does not pass [max_retries] on, so
    a wait started with [max_retries = 3] on a change that never settles
    makes 16 status checks, not 4, and names the default budget of 15 in
    its failure. *)
Theorem C1_max_retries_not_passed_on client change_token w :
  never_in_sync client ->
  fst (wait_on_status client change_token 0 default_interval
         default_max_interval 3 w)
  = Ok (Some (out_of_retries 15)) /\
  status_checks (snd (wait_on_status client change_token 0 default_interval
                        default_max_interval 3 w))
  = (status_checks w + 16)%nat.
Proof.
  intros Hpending.
  rewrite (wait_on_status_never_in_sync client Hpending)
    by (unfold default_interval, default_max_interval, longest_sleep; lia).
  cbn [fst snd]. rewrite status_checks_repeat.
  split; [reflexivity |]. destruct w; reflexivity.
Qed.

Lemma C1_max_retries_not_passed_on_witness :
  never_in_sync Scenario.pending /\
  status_checks (snd (wait_on_status Scenario.pending "token" 0 default_interval
                        default_max_interval 3 Scenario.fresh))
  = 16%nat.
Proof.
  assert (Hpending : never_in_sync Scenario.pending).
  { intros log tok. exists "PENDING". split; [reflexivity | discriminate]. }
  split; [exact Hpending |].
  exact (proj2 (C1_max_retries_not_passed_on Scenario.pending "token"
                  Scenario.fresh Hpending)).
Defined.

(** C2.  Once the interval has reached [max_interval] it is said to stay
    there on all further retries.  The recursive call does not pass
    [max_interval] on either: a wait started with [interval = 100] and
    [max_interval = 100] sleeps 100 twice and then falls to the default cap
    of 30 for the thirteen retries that are left. *)
Theorem C2_max_interval_not_passed_on client change_token w :
  never_in_sync client ->
  sleeps (snd (wait_on_status client change_token 0 100 100
                 default_max_retries w))
  = sleeps w ++ [100; 100] ++ repeat 30 13.
Proof.
  intros Hpending.
  rewrite (wait_on_status_never_in_sync client Hpending)
    by (unfold longest_sleep; lia).
  reflexivity.
Qed.

Lemma C2_max_interval_not_passed_on_witness :
  never_in_sync Scenario.pending /\
  sleeps (snd (wait_on_status Scenario.pending "token" 0 100 100
                 default_max_retries Scenario.fresh))
  = [100; 100; 30; 30; 30; 30; 30; 30; 30; 30; 30; 30; 30; 30; 30].
Proof.
  assert (Hpending : never_in_sync Scenario.pending).
  { intros log tok. exists "PENDING". split; [reflexivity | discriminate]. }
  split; [exact Hpending |].
  exact (C2_max_interval_not_passed_on Scenario.pending "token"
           Scenario.fresh Hpending).
Defined.

(** C3.  On a non-empty collection of previous predicates the scan of
    [find_old_predicate] compares the ['DataId'] of the requested predicate
    with that of the first previous predicate only: it returns that first
    predicate when the two are equal and [None] otherwise, and whatever
    comes after the first predicate has no part in the result. *)
Theorem C3_find_old_predicate_first_only
    new_pred old_preds first rest new_id old_id :
  Py.iter old_preds = Ok (first :: rest) ->
  Py.getitem new_pred "DataId" = Ok new_id ->
  Py.getitem first "DataId" = Ok old_id ->
  find_old_predicate new_pred old_preds
  = Ok (if Py.eqb new_id old_id then first else PNone) /\
  (forall others,
      find_old_predicate new_pred (PList (first :: others))
      = find_old_predicate new_pred old_preds).
Proof.
  intros Hiter Hnew Hold. split.
  - unfold find_old_predicate. rewrite Hiter, Hnew, Hold.
    destruct (Py.eqb new_id old_id); reflexivity.
  - intros others.
    rewrite (find_old_predicate_head new_pred old_preds first rest Hiter).
    apply (find_old_predicate_head new_pred (PList (first :: others)) first others).
    reflexivity.
Qed.

Lemma C3_find_old_predicate_first_only_witness :
  find_old_predicate Scenario.ip_b_negated (PList [Scenario.ip_a; Scenario.ip_b])
  = Ok PNone.
Proof.
  exact (proj1 (C3_find_old_predicate_first_only
                  Scenario.ip_b_negated (PList [Scenario.ip_a; Scenario.ip_b])
                  Scenario.ip_a [Scenario.ip_b] (PStr "b") (PStr "a")
                  eq_refl eq_refl eq_refl)).
Defined.

(** C4.  An update request with an incomplete predicate is said to fail with
    the description of the missing fields.  It does when nothing was there
    before ([update_incomplete_no_previous]), and it never calls the service
    ([update_incomplete_no_call]).  But a complete predicate ahead of the
    incomplete one is matched first, and with a list of previous predicates
    that step ends in line 96, where [pop] is called on the list with two
    arguments: [update] leaves with a [TypeError] and no failure is
    signalled, on any service and in any world. *)
Theorem C4_incomplete_predicate_not_reported client w :
  update client Scenario.untyped_second_after_list false w = (Raise TypeError, w).
Proof. reflexivity. Qed.

(** C5.  Full removal gives one DELETE entry for each previous predicate,
    [{'Action': 'DELETE', 'Predicate': p}], in their order, and no insert.
    The world is left alone and nothing is matched: the request's own
    properties are not read, so two requests with the same old properties
    give the same lists.  And these lists are what [update] sends, as the
    two members of ['Updates'], once it has its change token. *)
Theorem C5_full_removal_deletes_each_previous client request items w :
  Py.iter (previous_predicates request) = Ok items ->
  let deletes :=
    map (fun p => PDict [("Action", PStr "DELETE"); ("Predicate", p)]) items in
  reconcile request true w = (Ok (Some (deletes, [])), w) /\
  (forall other,
      old_properties other = old_properties request ->
      reconcile other true w = reconcile request true w) /\
  (forall rate_limit change_token,
      Py.dict_get (properties request) "RateLimit" = Some rate_limit ->
      svc_get_change_token client (calls w) = Reply change_token ->
      exists more,
        calls (snd (update client request true w))
        = calls w ++ GetChangeToken
            :: UpdateRateBasedRule
                 [("RuleId", physical_resource_id w);
                  ("RateLimit", rate_limit);
                  ("Updates", PList [PList deletes; PList []]);
                  ("ChangeToken", PStr change_token)]
            :: more).
Proof.
  intros Hiter deletes.
  pose proof (reconcile_remove_all request items w Hiter) as Hrec.
  split; [exact Hrec |]. split.
  - intros other Hsame. rewrite Hrec.
    apply reconcile_remove_all.
    unfold previous_predicates in *. now rewrite Hsame.
  - intros rate_limit change_token Hrate Htoken.
    exact (update_sends client request true deletes [] rate_limit change_token
             w w Hrec Hrate Htoken).
Qed.

Lemma C5_full_removal_deletes_each_previous_witness :
  reconcile Scenario.two_previous true Scenario.fresh
  = (Ok (Some ([PDict [("Action", PStr "DELETE"); ("Predicate", Scenario.ip_a)];
                PDict [("Action", PStr "DELETE"); ("Predicate", Scenario.ip_b)]],
               [])),
     Scenario.fresh).
Proof.
  exact (proj1 (C5_full_removal_deletes_each_previous Scenario.settled
                  Scenario.two_previous [Scenario.ip_a; Scenario.ip_b]
                  Scenario.fresh eq_refl)).
Defined.

(** C6.  The payload is said to carry one sequence, the delete entries and
    then the insert entries, as its ['Updates'].  What [update] sends, next
    to the rate limit and a change token just obtained, is the list of the
    two lists, [[deletes, inserts]], and that is never the one sequence
    (the comment on line 127 says that the two are merged). *)
Theorem C6_updates_is_a_pair_of_lists
    client request remove_all deletes inserts rate_limit change_token w w1 :
  reconcile request remove_all w = (Ok (Some (deletes, inserts)), w1) ->
  Py.dict_get (properties request) "RateLimit" = Some rate_limit ->
  svc_get_change_token client (calls w1) = Reply change_token ->
  (exists kwargs more,
      calls (snd (update client request remove_all w))
      = calls w1 ++ GetChangeToken :: UpdateRateBasedRule kwargs :: more /\
      Py.dict_get kwargs "RateLimit" = Some rate_limit /\
      Py.dict_get kwargs "ChangeToken" = Some (PStr change_token) /\
      Py.dict_get kwargs "Updates" = Some (PList [PList deletes; PList inserts])) /\
  PList [PList deletes; PList inserts] <> PList (deletes ++ inserts).
Proof.
  intros Hrec Hrate Htoken. split; [| apply pair_is_not_concatenation].
  exists (update_kwargs (physical_resource_id w1) rate_limit deletes inserts
                        change_token).
  rewrite (update_run client request remove_all deletes inserts w w1 Hrec).
  rewrite (submit_run client request deletes inserts rate_limit change_token w1
             Hrate Htoken).
  cbn zeta.
  destruct (svc_update_rate_based_rule client (calls w1 ++ [GetChangeToken]) _)
    as [response | error | name].
  - rewrite after_wait_calls.
    destruct (wait_for_calls client response
                (with_call (with_call w1 GetChangeToken)
                   (UpdateRateBasedRule
                      (update_kwargs (physical_resource_id w1) rate_limit deletes
                         inserts change_token)))) as [more Hmore].
    exists (GetChangeTokenStatus response :: more).
    rewrite Hmore. cbn. rewrite <- !app_assoc. repeat split.
  - exists []. cbn. rewrite <- !app_assoc. repeat split.
  - exists []. cbn. rewrite <- !app_assoc. repeat split.
Qed.

Lemma C6_updates_is_a_pair_of_lists_witness :
  exists kwargs more,
    calls (snd (update Scenario.settled Scenario.one_insert false Scenario.fresh))
    = GetChangeToken :: UpdateRateBasedRule kwargs :: more /\
    Py.dict_get kwargs "Updates"
    = Some (PList [PList []; PList [insert_entry Scenario.ip_a]]).
Proof.
  destruct (C6_updates_is_a_pair_of_lists Scenario.settled Scenario.one_insert
              false [] [insert_entry Scenario.ip_a] (PInt 2000) "token"
              Scenario.fresh Scenario.fresh eq_refl eq_refl eq_refl)
    as [[kwargs [more [Hcalls [_ [_ Hupdates]]]]] _].
  exists kwargs, more. split; [exact Hcalls | exact Hupdates].
Defined.

(** C7.  A delete call answered by the error that says the rule is not
    there is said to make [delete] report success.  Line 161 looks for the
    name [WAFNonexistentItemException] in the message of the error, while
    the service gives that name as the error's code: when the message does
    not repeat it, [delete] makes the delete call, checks no status and
    reports the failure under the error's text. *)
Theorem C7_absent_rule_is_reported_as_failure
    client request w w1 change_token error :
  update client request true w = (Ok tt, w1) ->
  svc_get_change_token client (calls w1) = Reply change_token ->
  let kwargs := delete_kwargs (physical_resource_id w1) change_token in
  svc_delete_rate_based_rule client (calls w1 ++ [GetChangeToken]) kwargs
  = Fault error ->
  error_code error = "WAFNonexistentItemException" ->
  Py.contains (error_message error) "WAFNonexistentItemException" = false ->
  delete client request w
  = (Ok tt,
     mkWorld (physical_resource_id w1)
             (signals w1 ++ [Fail (ErrorText error)])
             (calls w1 ++ [GetChangeToken; DeleteRateBasedRule kwargs])
             (sleeps w1)) /\
  reported (snd (delete client request w)) = Some (Fail (ErrorText error)).
Proof.
  intros Hupdate Htoken kwargs Hdelete Hcode Hmessage.
  assert (Hrun : delete client request w
                 = (Ok tt,
                    mkWorld (physical_resource_id w1)
                            (signals w1 ++ [Fail (ErrorText error)])
                            (calls w1 ++ [GetChangeToken; DeleteRateBasedRule kwargs])
                            (sleeps w1))).
  { rewrite (delete_run client request w w1 change_token Hupdate Htoken).
    cbn zeta. fold kwargs. rewrite Hdelete, Hmessage.
    unfold with_signal, with_call.
    cbn [physical_resource_id signals calls sleeps].
    now rewrite <- !app_assoc. }
  split; [exact Hrun |].
  rewrite Hrun. cbn [snd]. unfold reported. cbn [signals].
  rewrite map_app. apply last_last.
Qed.

Lemma C7_absent_rule_is_reported_as_failure_witness :
  error_code Scenario.nonexistent = "WAFNonexistentItemException" /\
  reported (snd (delete Scenario.rule_gone Scenario.two_previous Scenario.fresh))
  = Some (Fail (ErrorText Scenario.nonexistent)).
Proof.
  split; [reflexivity |].
  exact (proj2 (C7_absent_rule_is_reported_as_failure Scenario.rule_gone
                  Scenario.two_previous Scenario.fresh
                  (snd (update Scenario.rule_gone Scenario.two_previous true
                          Scenario.fresh))
                  "token" Scenario.nonexistent
                  eq_refl eq_refl eq_refl eq_refl eq_refl)).
Defined.





(** C10.  When the request has an ['Updates'] key and the create call and
    its wait have succeeded, [create] runs [update] and then signals
    success with 'Create and update are done.': the test before the signal
    reads the status of the create phase again, so whatever the update has
    signalled, failure included, is overridden as soon as it returns. *)
Theorem C10_create_reports_success_after_failed_update
    client request w change_token response status w3 w4 :
  Py.dict_mem (properties request) "Updates" = true ->
  svc_get_change_token client (calls w) = Reply change_token ->
  svc_create_rate_based_rule client (calls w ++ [GetChangeToken])
    (create_kwargs request change_token) = Reply response ->
  wait_for client (create_change_token response)
    (created w (create_kwargs request change_token) response)
  = (Ok (Some status), w3) ->
  status_Success status = true ->
  update client request false w3 = (Ok tt, w4) ->
  create client request w
  = (Ok tt, with_signal w4 (Success (Some (Literal "Create and update are done.")))) /\
  reported (snd (create client request w))
  = Some (Success (Some (Literal "Create and update are done."))).
Proof.
  intros Hupdates Htoken Hcreate Hwait Hok Hupdate.
  assert (Hrun : create client request w
                 = (Ok tt, with_signal w4
                             (Success (Some (Literal "Create and update are done."))))).
  { rewrite (create_run client request w change_token response Htoken Hcreate).
    rewrite (try_bind_ok _ _ _ _ _ _ Hwait).
    cbn [status_getitem]. 
    rewrite (try_bind_ok _ _ _ w3 true w3) by (unfold ret; now rewrite Hok).
    rewrite Hupdates.
    rewrite (try_bind_ok _ _ _ _ _ _ Hupdate).
    rewrite (try_bind_ok _ _ _ w4 true w4) by (unfold ret; now rewrite Hok).
    reflexivity. }
  split; [exact Hrun |].
  rewrite Hrun. apply reported_with_signal.
Qed.

Lemma C10_create_reports_success_after_failed_update_witness :
  reported (snd (update Scenario.settled Scenario.untyped_second false
                   (with_call
                      (created Scenario.fresh
                         (create_kwargs Scenario.untyped_second "token")
                         (mkCreateResponse "rule-1" "token-created"))
                      (GetChangeTokenStatus "token-created"))))
  = Some (Fail (MissingFields Scenario.untyped_c ["Type"])) /\
  reported (snd (create Scenario.settled Scenario.untyped_second Scenario.fresh))
  = Some (Success (Some (Literal "Create and update are done."))).
Proof.
  split; [reflexivity |].
  exact (proj2 (C10_create_reports_success_after_failed_update
                  Scenario.settled Scenario.untyped_second Scenario.fresh "token"
                  (mkCreateResponse "rule-1" "token-created") in_sync _ _
                  eq_refl eq_refl eq_refl eq_refl eq_refl eq_refl)).
Defined.

(** ** A whole run *)

(** A create request with no predicates on a service that settles at once:
    one create call, one status check, the identifier stored and success
    reported. *)
Example create_plain_rule :
  create Scenario.settled Scenario.plain_request Scenario.fresh
  = (Ok tt,
     mkWorld (PStr "rule-1")
             [Success (Some (Literal "Create is done."))]
             [GetChangeToken;
              CreateRateBasedRule (create_kwargs Scenario.plain_request "token");
              GetChangeTokenStatus "token-created"]
             []).
Proof. reflexivity. Qed.

(** * Further properties *)

(** ** [wait_on_status] on any service *)

Lemma polling_checks client tok cr i mi mr w r w' :
  polling client tok cr i mi mr w r w' ->
  exists n,
    (n <= polls_left cr mr)%nat /\
    calls w' = calls w ++ repeat (GetChangeTokenStatus tok) (S n).
Proof.
  induction 1 as [? ? ? ? w error _ | ? ? ? ? w _ | ? ? ? ? w status _ _ _
                 | ? ? ? ? w name _ | ? ? ? ? w status e _ _ _ _
                 | cr i mi mr w status r w' _ _ Hlt _ _ [n [Hn IH]]];
    try (exists 0%nat; split; [lia | reflexivity]).
  exists (S n). split.
  - rewrite (polls_left_retry cr mr Hlt). lia.
  - rewrite IH. cbn. rewrite <- app_assoc. reflexivity.
Qed.

(** An exception of [time.sleep] comes with a length it does not take. *)
Lemma sleep_error_some i e :
  sleep_error i = Some e ->
  (e = ValueError \/ e = OverflowError \/ e = OSError) /\
  ~ 0 <= i <= longest_sleep.
Proof.
  intros Hsome. split.
  - unfold sleep_error in Hsome.
    destruct ((i <? - max_timestamp) || (max_timestamp <? i));
      [injection Hsome as <-; auto |].
    destruct (i <? 0); [injection Hsome as <-; auto |].
    destruct (longest_sleep <? i); [injection Hsome as <-; auto | discriminate].
  - intros Hrange. apply sleep_error_none in Hrange. congruence.
Qed.

(** What a run can raise: the exception of a status check that the client
    did not complete, or the exception of a sleep, and the latter only
    when the interval or the cap of the call is a length [time.sleep] does
    not take. *)
Lemma polling_raise client tok cr i mi mr w r w' :
  polling client tok cr i mi mr w r w' ->
  forall e, r = Raise e ->
  (exists name log,
      e = BotoCoreError name /\
      svc_get_change_token_status client log tok = Abort name) \/
  ((e = ValueError \/ e = OverflowError \/ e = OSError) /\
   (~ 0 <= i <= longest_sleep \/ ~ 0 <= mi <= longest_sleep)).
Proof.
  induction 1 as [? ? ? ? w error _ | ? ? ? ? w _ | ? ? ? ? w status _ _ _
                 | cr i mi mr w name Hsvc | cr i mi mr w status e' _ _ _ Hsleep
                 | cr i mi mr w status r w' _ _ _ Hsleep _ IH];
    intros e Hr; try discriminate.
  - injection Hr as <-. left. eauto.
  - injection Hr as <-. right.
    destruct (sleep_error_some i e' Hsleep) as [Hkind Hout]. auto.
  - destruct (IH e Hr) as [Habort | [Hkind [Hout | Hout]]].
    + now left.
    + right. split; [exact Hkind |]. right.
      apply sleep_error_none in Hsleep. lia.
    + exfalso. apply Hout. unfold default_max_interval, longest_sleep. lia.
Qed.

Lemma polling_frame client tok cr i mi mr w r w' :
  polling client tok cr i mi mr w r w' ->
  r <> Ok None ->
  physical_resource_id w' = physical_resource_id w /\
  signals w' = signals w.
Proof.
  induction 1 as [? ? ? ? w error _ | ? ? ? ? w _ | ? ? ? ? w status _ _ _
                 | ? ? ? ? w name _ | ? ? ? ? w status e _ _ _ _
                 | cr i mi mr w status r w' _ _ _ _ _ IH];
    intros Hr; try congruence; try (split; reflexivity).
  exact (IH Hr).
Qed.

(** X1.  Whatever the service answers, [wait_on_status] makes at least one
    status check and no more than one plus [polls_left], it asks about its
    own change token only, and it makes no other call.  With the arguments
    the handlers use that is 16 status checks at most. *)
Theorem X1_wait_on_status_is_bounded client change_token
    current_retry interval max_interval max_retries w :
  (exists n,
      (n <= polls_left current_retry max_retries)%nat /\
      calls (snd (wait_on_status client change_token current_retry interval
                    max_interval max_retries w))
      = calls w ++ repeat (GetChangeTokenStatus change_token) (S n)) /\
  (status_checks w < status_checks (snd (wait_for client change_token w))
                   <= status_checks w + 16)%nat.
Proof.
  split.
  - eapply polling_checks. apply wait_on_status_polling.
  - unfold wait_for.
    destruct (polling_checks client change_token 0 default_interval
                default_max_interval default_max_retries w _ _
                (wait_on_status_polling client change_token 0 default_interval
                   default_max_interval default_max_retries w))
      as [n [Hn Hcalls]].
    change (polls_left 0 default_max_retries) with 15%nat in Hn.
    unfold status_checks. rewrite Hcalls, filter_app, length_app.
    assert (Hrepeat : forall k,
               length (filter (fun c => match c with
                                        | GetChangeTokenStatus _ => true
                                        | _ => false
                                        end)
                         (repeat (GetChangeTokenStatus change_token) k)) = k).
    { induction k as [| k IH]; cbn in *; [reflexivity | now rewrite IH]. }
    rewrite Hrepeat. lia.
Qed.

(** X2.  A change that settles within the polls that are left is waited
    for: when the status checks number 0 to [n - 1] answer something other
    than INSYNC and check number [n] answers INSYNC, [wait_on_status]
    returns success after [n + 1] status checks, having slept [n] times,
    and leaves the identity and the signals alone.  The interval and its
    cap are lengths [time.sleep] takes, from 0 to [longest_sleep]. *)
Theorem X2_wait_on_status_waits_for_in_sync client change_token n
    current_retry interval max_interval max_retries w :
  (n <= polls_left current_retry max_retries)%nat ->
  0 <= interval <= longest_sleep -> 0 <= max_interval <= longest_sleep ->
  (forall k, (k < n)%nat ->
     exists status,
       svc_get_change_token_status client
         (calls w ++ repeat (GetChangeTokenStatus change_token) k) change_token
       = Reply status /\
       status <> "INSYNC") ->
  svc_get_change_token_status client
    (calls w ++ repeat (GetChangeTokenStatus change_token) n) change_token
  = Reply "INSYNC" ->
  wait_on_status client change_token current_retry interval max_interval
    max_retries w
  = (Ok (Some (mkStatus true (Literal ""))),
     mkWorld (physical_resource_id w) (signals w)
             (calls w ++ repeat (GetChangeTokenStatus change_token) (S n))
             (sleeps w ++ intervals n interval max_interval)).
Proof. apply wait_on_status_settles. Qed.

Lemma X2_wait_on_status_waits_for_in_sync_witness :
  wait_for (Case.settling 2) "token" Scenario.fresh
  = (Ok (Some (mkStatus true (Literal ""))),
     mkWorld PNone []
             [GetChangeTokenStatus "token"; GetChangeTokenStatus "token";
              GetChangeTokenStatus "token"]
             [30; 30]).
Proof.
  apply (X2_wait_on_status_waits_for_in_sync (Case.settling 2) "token" 2 0
           default_interval default_max_interval default_max_retries
           Scenario.fresh).
  - vm_compute. lia.
  - unfold default_interval, longest_sleep. lia.
  - unfold default_max_interval, longest_sleep. lia.
  - intros k Hk. exists "PENDING".
    destruct k as [| [| k]]; [split; [reflexivity | discriminate] ..|].
    exfalso. lia.
  - reflexivity.
Defined.

(** X3.  The record [wait_on_status] returns says ['Success'] exactly when
    the last status check it made was answered with INSYNC. *)
Theorem X3_success_exactly_when_in_sync client change_token
    current_retry interval max_interval max_retries w :
  exists log,
    calls (snd (wait_on_status client change_token current_retry interval
                  max_interval max_retries w))
    = log ++ [GetChangeTokenStatus change_token] /\
    forall record,
      fst (wait_on_status client change_token current_retry interval
             max_interval max_retries w) = Ok (Some record) ->
      (status_Success record = true <->
       svc_get_change_token_status client log change_token = Reply "INSYNC").
Proof. apply wait_on_status_success_iff_in_sync. Qed.

Lemma X3_success_exactly_when_in_sync_witness :
  fst (wait_for Scenario.settled "token" Scenario.fresh) = Ok (Some in_sync) /\
  (status_Success in_sync = true <->
   svc_get_change_token_status Scenario.settled [] "token" = Reply "INSYNC").
Proof.
  split; [reflexivity |].
  destruct (X3_success_exactly_when_in_sync Scenario.settled "token" 0
              default_interval default_max_interval default_max_retries
              Scenario.fresh) as [log [Hcalls Hrecord]].
  change (calls _) with [GetChangeTokenStatus "token"] in Hcalls.
  assert (Hlog : log = []).
  { destruct log as [| c [| c' log]]; [reflexivity | discriminate ..]. }
  subst log. exact (Hrecord in_sync eq_refl).
Defined.

(** X4.  With the arguments the handlers use, a change that never settles
    is given up after exactly 16 status checks and 15 sleeps of 30: the
    result is the failure record that names 15 retries, and neither the
    identity nor the signals are touched. *)
Theorem X4_default_wait_times_out client change_token w :
  never_in_sync client ->
  wait_for client change_token w
  = (Ok (Some (mkStatus false (MaxRetriesReached 15))),
     mkWorld (physical_resource_id w) (signals w)
             (calls w ++ repeat (GetChangeTokenStatus change_token) 16)
             (sleeps w ++ repeat 30 15)).
Proof.
  intros Hpending. unfold wait_for.
  rewrite (wait_on_status_never_in_sync client Hpending)
    by (unfold default_interval, default_max_interval, longest_sleep; lia).
  reflexivity.
Qed.

Lemma X4_default_wait_times_out_witness :
  never_in_sync Scenario.pending /\
  fst (wait_for Scenario.pending "token" Scenario.fresh)
  = Ok (Some (mkStatus false (MaxRetriesReached 15))).
Proof.
  assert (Hpending : never_in_sync Scenario.pending).
  { intros log tok. exists "PENDING". split; [reflexivity | discriminate]. }
  split; [exact Hpending |].
  rewrite (X4_default_wait_times_out Scenario.pending "token" Scenario.fresh
             Hpending).
  reflexivity.
Defined.

(** X5.  An exception that leaves [wait_on_status] is never a
    [ClientError]: it is the exception of a status check that the client
    did not complete, or it comes from [time.sleep], and then the interval
    or the cap the call was given is not a length [time.sleep] takes
    (negative, or beyond [longest_sleep]). *)
Theorem X5_wait_on_status_raises_for_client_or_sleep client change_token
    current_retry interval max_interval max_retries w e :
  fst (wait_on_status client change_token current_retry interval max_interval
         max_retries w) = Raise e ->
  (exists name log,
      e = BotoCoreError name /\
      svc_get_change_token_status client log change_token = Abort name) \/
  ((e = ValueError \/ e = OverflowError \/ e = OSError) /\
   (~ 0 <= interval <= longest_sleep \/ ~ 0 <= max_interval <= longest_sleep)).
Proof.
  intros Hraise.
  exact (polling_raise client change_token current_retry interval max_interval
           max_retries w _ _
           (wait_on_status_polling client change_token current_retry interval
              max_interval max_retries w) e Hraise).
Qed.

Lemma X5_wait_on_status_raises_for_client_or_sleep_witness :
  fst (wait_on_status Scenario.pending "token" 0 30 (-1) default_max_retries
         Scenario.fresh) = Raise ValueError /\
  fst (wait_on_status Scenario.pending "token" 0 10000000000 30
         default_max_retries Scenario.fresh) = Raise OverflowError /\
  ((exists name log,
       ValueError = BotoCoreError name /\
       svc_get_change_token_status Scenario.pending log "token" = Abort name) \/
   ((ValueError = ValueError \/ ValueError = OverflowError \/ ValueError = OSError) /\
    (~ 0 <= 30 <= longest_sleep \/ ~ 0 <= -1 <= longest_sleep))).
Proof.
  split; [reflexivity |]. split; [reflexivity |].
  exact (X5_wait_on_status_raises_for_client_or_sleep Scenario.pending "token"
           0 30 (-1) default_max_retries Scenario.fresh ValueError eq_refl).
Defined.

(** X6.  Unless a status check is answered by an error (the only case in
    which it returns [None]), [wait_on_status] leaves the resource identity
    and the signals sent to the framework as they were. *)
Theorem X6_wait_on_status_marks_only_on_error client change_token
    current_retry interval max_interval max_retries w :
  fst (wait_on_status client change_token current_retry interval max_interval
         max_retries w) <> Ok None ->
  physical_resource_id
    (snd (wait_on_status client change_token current_retry interval
            max_interval max_retries w)) = physical_resource_id w /\
  signals
    (snd (wait_on_status client change_token current_retry interval
            max_interval max_retries w)) = signals w.
Proof.
  apply polling_frame with (client := client) (tok := change_token)
                           (cr := current_retry) (i := interval)
                           (mi := max_interval) (mr := max_retries).
  apply wait_on_status_polling.
Qed.

Lemma X6_wait_on_status_marks_only_on_error_witness :
  physical_resource_id
    (snd (wait_on_status Scenario.pending "token" 0 30 30 15
            (mkWorld (PStr "rule-1") [] [] []))) = PStr "rule-1" /\
  signals
    (snd (wait_on_status Scenario.pending "token" 0 30 30 15
            (mkWorld (PStr "rule-1") [] [] []))) = [].
Proof.
  apply (X6_wait_on_status_marks_only_on_error Scenario.pending "token" 0 30 30 15
           (mkWorld (PStr "rule-1") [] [] [])).
  vm_compute. intros H. discriminate H.
Defined.

(** ** The reconciler on the shapes a request can take *)

Lemma keys_hashable (d : pydict) :
  forallb Py.hashable (map (fun kv => PStr (fst kv)) d) = true.
Proof. induction d as [| [k v] d IH]; [reflexivity | exact IH]. Qed.

Lemma key_among_keys (d : pydict) field :
  existsb (Py.eqb (PStr field)) (map (fun kv => PStr (fst kv)) d)
  = Py.dict_mem d field.
Proof.
  unfold Py.dict_mem.
  induction d as [| [k v] d IH]; [reflexivity |].
  cbn. destruct (String.eqb field k); [reflexivity | exact IH].
Qed.

Lemma getitem_cases v key :
  (exists x, Py.getitem v key = Ok x) \/
  Py.getitem v key = Raise TypeError \/
  Py.getitem v key = Raise (KeyError key).
Proof.
  destruct v as [| b | n | s | xs | kvs]; cbn; auto.
  destruct (Py.dict_get kvs key); eauto.
Qed.

Lemma match_new_predicates_all_complete items :
  Forall (fun p => missing_fields p = Ok []) items ->
  forall deletes inserts w,
    match_new_predicates items (PDict []) deletes inserts w
    = (Ok (Some (PDict [], deletes, inserts ++ map insert_entry items)), w).
Proof.
  induction 1 as [| p items Hp _ IH]; intros deletes inserts w.
  - cbn. now rewrite app_nil_r.
  - rewrite match_new_predicates_no_previous by assumption.
    rewrite IH. cbn [map]. rewrite <- app_assoc. reflexivity.
Qed.

(** X7.  For a predicate that is a dict, [missing_fields] gives the
    required fields that are not among its keys, in the order Negated,
    Type, DataId: the values under the keys play no part, and keys beyond
    the three are ignored.  So nothing is missing exactly when all three
    keys are there. *)
Theorem X7_missing_fields_reads_the_keys (d : pydict) :
  missing_fields (PDict d)
  = Ok (filter (fun field => negb (Py.dict_mem d field)) required_fields) /\
  (missing_fields (PDict d) = Ok [] <->
   Py.dict_mem d "Negated" && Py.dict_mem d "Type" && Py.dict_mem d "DataId"
   = true).
Proof.
  assert (Hmissing : missing_fields (PDict d)
                     = Ok (filter (fun field => negb (Py.dict_mem d field))
                                  required_fields)).
  { unfold missing_fields, Py.to_set. cbn [Py.iter].
    rewrite keys_hashable. f_equal. apply filter_ext.
    intros field. now rewrite key_among_keys. }
  split; [exact Hmissing |].
  rewrite Hmissing. unfold required_fields. cbn [filter].
  destruct (Py.dict_mem d "Negated"), (Py.dict_mem d "Type"),
    (Py.dict_mem d "DataId"); cbn; split; intros H; congruence.
Qed.

(** X8.  From a mapping of previous predicates [find_old_predicate] never
    returns a match: its loop visits the keys, which are strings and have
    no ['DataId'], so the only result it can return is [None], and only
    from the empty mapping. *)
Theorem X8_no_match_from_a_mapping new_pred (d : pydict) r :
  find_old_predicate new_pred (PDict d) = Ok r ->
  d = [] /\ r = PNone.
Proof.
  destruct d as [| [k v] d]; unfold find_old_predicate; cbn [Py.iter map fst].
  - intros [= <-]. split; reflexivity.
  - destruct (Py.getitem new_pred "DataId") as [new_id | e]; cbn; discriminate.
Qed.

Lemma X8_no_match_from_a_mapping_witness :
  find_old_predicate Scenario.ip_a (PDict []) = Ok PNone /\
  (@nil (string * pyval) = [] /\ PNone = PNone).
Proof.
  split; [reflexivity |].
  exact (X8_no_match_from_a_mapping Scenario.ip_a [] PNone eq_refl).
Defined.

(** X9.  When the previous predicates are a list, empty or not, and the
    first requested predicate is complete, [update] never gets to the
    service: matching that predicate raises, at the latest in line 96
    where [pop] is given two arguments, and nothing is signalled. *)
Theorem X9_update_after_a_list_raises
    client request old new_predicates first rest w :
  Py.dict_get (old_properties request) "MatchPredicates" = Some (PList old) ->
  Py.dict_get (properties request) "Updates" = Some new_predicates ->
  Py.iter new_predicates = Ok (first :: rest) ->
  missing_fields first = Ok [] ->
  exists e,
    update client request false w = (Raise e, w) /\
    (e = TypeError \/ e = KeyError "DataId").
Proof.
  intros Hold Hupdates Hiter Hcomplete.
  unfold update, reconcile, previous_predicates, bind, lift. cbn [negb Py.getitem].
  rewrite Hold, Hupdates, Hiter. cbn [match_new_predicates].
  unfold bind, lift. rewrite Hcomplete.
  unfold find_old_predicate. cbn [Py.iter].
  destruct old as [| old_pred old].
  - exists TypeError. split; [reflexivity | now left].
  - destruct (getitem_cases first "DataId") as [[new_id Hnew] | [Hnew | Hnew]];
      rewrite Hnew; [| eexists; split; [reflexivity | auto] ..].
    destruct (getitem_cases old_pred "DataId") as [[old_id Hfound] | [Hfound | Hfound]];
      rewrite Hfound; [| eexists; split; [reflexivity | auto] ..].
    destruct (Py.eqb new_id old_id); exists TypeError; split; auto.
Qed.

Lemma X9_update_after_a_list_raises_witness :
  exists e,
    update Scenario.settled Scenario.untyped_second_after_list false Scenario.fresh
    = (Raise e, Scenario.fresh) /\
    (e = TypeError \/ e = KeyError "DataId").
Proof.
  exact (X9_update_after_a_list_raises Scenario.settled
           Scenario.untyped_second_after_list [Scenario.ip_b]
           (PList [Scenario.ip_a; Scenario.untyped_c]) Scenario.ip_a
           [Scenario.untyped_c] Scenario.fresh eq_refl eq_refl eq_refl eq_refl).
Defined.

(** X10.  On a rule with no previous predicates, an update whose requested
    predicates are all complete deletes nothing and inserts each requested
    predicate once, as [{'Action': 'INSERT', 'Predicate': p}], in the order
    of the request; the reconciliation itself signals nothing and calls
    nothing. *)
Theorem X10_first_predicates_are_all_inserted request new_predicates items w :
  Py.dict_get (old_properties request) "MatchPredicates" = None ->
  Py.dict_get (properties request) "Updates" = Some new_predicates ->
  Py.iter new_predicates = Ok items ->
  Forall (fun p => missing_fields p = Ok []) items ->
  reconcile request false w
  = (Ok (Some ([],
               map (fun p => PDict [("Action", PStr "INSERT"); ("Predicate", p)])
                   items)),
     w).
Proof.
  intros Hold Hupdates Hiter Hcomplete.
  unfold reconcile, previous_predicates, bind, lift. cbn [negb Py.getitem].
  rewrite Hold, Hupdates, Hiter.
  rewrite (match_new_predicates_all_complete items Hcomplete).
  reflexivity.
Qed.

Lemma X10_first_predicates_are_all_inserted_witness :
  reconcile Case.two_inserts false Scenario.fresh
  = (Ok (Some ([],
               [PDict [("Action", PStr "INSERT"); ("Predicate", Scenario.ip_a)];
                PDict [("Action", PStr "INSERT"); ("Predicate", Scenario.ip_b)]])),
     Scenario.fresh).
Proof.
  apply (X10_first_predicates_are_all_inserted Case.two_inserts
           (PList [Scenario.ip_a; Scenario.ip_b])
           [Scenario.ip_a; Scenario.ip_b] Scenario.fresh);
    try reflexivity.
  repeat constructor.
Defined.

(** X11.  An update that requests no predicate at all removes every
    previous predicate: with an empty ['Updates'] the matching loop does not
    run, and the loop after it marks each previous predicate for deletion,
    as [{'Action': 'DELETE', 'Predicate': p}], as full removal does. *)
Theorem X11_empty_request_deletes_every_previous request new_predicates items w :
  Py.dict_get (properties request) "Updates" = Some new_predicates ->
  Py.iter new_predicates = Ok [] ->
  Py.iter (previous_predicates request) = Ok items ->
  reconcile request false w
  = (Ok (Some (map (fun p => PDict [("Action", PStr "DELETE"); ("Predicate", p)])
                   items,
               [])),
     w) /\
  reconcile request false w = reconcile request true w.
Proof.
  intros Hupdates Hnone Hiter.
  assert (Hrec : reconcile request false w
                 = (Ok (Some (map delete_entry items, [])), w)).
  { unfold reconcile, bind, lift, ret. cbn [negb Py.getitem].
    rewrite Hupdates, Hnone. cbn [match_new_predicates]. unfold ret.
    rewrite Hiter. reflexivity. }
  split; [exact Hrec |].
  rewrite Hrec. symmetry. now apply reconcile_remove_all.
Qed.

Lemma X11_empty_request_deletes_every_previous_witness :
  reconcile Case.none_requested false Scenario.fresh
  = (Ok (Some ([PDict [("Action", PStr "DELETE"); ("Predicate", Scenario.ip_a)];
                PDict [("Action", PStr "DELETE"); ("Predicate", Scenario.ip_b)]],
               [])),
     Scenario.fresh).
Proof.
  exact (proj1 (X11_empty_request_deletes_every_previous Case.none_requested
                  (PList []) [Scenario.ip_a; Scenario.ip_b] Scenario.fresh
                  eq_refl eq_refl eq_refl)).
Defined.

(** X12.  [update] without full removal needs the ['Updates'] property: on
    a request that does not have it, it raises [KeyError] for that key
    before anything is signalled or called. *)
Theorem X12_update_needs_the_updates_key client request w :
  Py.dict_get (properties request) "Updates" = None ->
  update client request false w = (Raise (KeyError "Updates"), w).
Proof.
  intros Hnone. unfold update, reconcile, bind, lift. cbn [negb Py.getitem].
  rewrite Hnone. reflexivity.
Qed.

Lemma X12_update_needs_the_updates_key_witness :
  update Scenario.settled Scenario.plain_request false Scenario.fresh
  = (Raise (KeyError "Updates"), Scenario.fresh).
Proof.
  exact (X12_update_needs_the_updates_key Scenario.settled Scenario.plain_request
           Scenario.fresh eq_refl).
Defined.

(** X13.  [delete] reads the ['RateLimit'] property for the update it runs
    first: on a request without it, [delete] raises [KeyError] for that key
    and the service is never called, so the rule is not deleted. *)
Theorem X13_delete_needs_the_rate_limit client request items w :
  Py.iter (previous_predicates request) = Ok items ->
  Py.dict_get (properties request) "RateLimit" = None ->
  delete client request w = (Raise (KeyError "RateLimit"), w).
Proof.
  intros Hiter Hnone. unfold delete.
  assert (Hupdate : update client request true w
                    = (Raise (KeyError "RateLimit"), w)).
  { rewrite (update_run client request true (map delete_entry items) [] w w
               (reconcile_remove_all request items w Hiter)).
    unfold submit, bind, lift, get_physical_resource_id. cbn [Py.getitem].
    rewrite Hnone. reflexivity. }
  unfold bind. rewrite Hupdate. reflexivity.
Qed.

Lemma X13_delete_needs_the_rate_limit_witness :
  delete Scenario.settled Case.no_rate_limit Scenario.fresh
  = (Raise (KeyError "RateLimit"), Scenario.fresh).
Proof.
  exact (X13_delete_needs_the_rate_limit Scenario.settled Case.no_rate_limit []
           Scenario.fresh eq_refl eq_refl).
Defined.

(** ** The handlers against the service *)

Lemma submit_token_fault client request deletes inserts rate_limit w error :
  Py.dict_get (properties request) "RateLimit" = Some rate_limit ->
  svc_get_change_token client (calls w) = Fault error ->
  submit client request deletes inserts w
  = (Ok tt, with_signal (with_call w GetChangeToken) (Fail (ErrorText error))).
Proof.
  intros Hrate Htoken. unfold submit.
  rewrite (bind_ok _ _ w (physical_resource_id w) w) by reflexivity.
  rewrite (bind_ok _ _ w rate_limit w)
    by (unfold lift; cbn [Py.getitem]; now rewrite Hrate).
  rewrite (try_bind_fault _ _ _ w error (with_call w GetChangeToken))
    by (now apply client_call_fault).
  reflexivity.
Qed.

(** A wait whose first status check is answered with INSYNC. *)
Lemma wait_for_in_sync_at_once client tok w :
  svc_get_change_token_status client (calls w) tok = Reply "INSYNC" ->
  wait_for client tok w = (Ok (Some in_sync), with_call w (GetChangeTokenStatus tok)).
Proof.
  intros Hsvc. unfold wait_for. rewrite wait_on_status_step. cbn zeta.
  rewrite Hsvc. reflexivity.
Qed.

(** X14.  An error raised by the service while [update] obtains its change
    token or makes the update call ends [update] normally with the failure
    reported under the error's text.  Unlike [create], [update] leaves the
    resource identity as it was, and it makes no status check. *)
Theorem X14_update_reports_service_errors
    client request remove_all deletes inserts rate_limit w w1 error :
  reconcile request remove_all w = (Ok (Some (deletes, inserts)), w1) ->
  Py.dict_get (properties request) "RateLimit" = Some rate_limit ->
  svc_get_change_token client (calls w1) = Fault error \/
  (exists change_token,
      svc_get_change_token client (calls w1) = Reply change_token /\
      svc_update_rate_based_rule client (calls w1 ++ [GetChangeToken])
        (update_kwargs (physical_resource_id w1) rate_limit deletes inserts
                       change_token) = Fault error) ->
  exists w',
    update client request remove_all w = (Ok tt, w') /\
    reported w' = Some (Fail (ErrorText error)) /\
    physical_resource_id w' = physical_resource_id w1 /\
    status_checks w' = status_checks w1.
Proof.
  intros Hrec Hrate Herror.
  rewrite (update_run client request remove_all deletes inserts w w1 Hrec).
  destruct Herror as [Htoken | [change_token [Htoken Hupdate]]].
  - rewrite (submit_token_fault client request deletes inserts rate_limit w1 error
               Hrate Htoken).
    eexists. split; [reflexivity |]. split; [apply reported_with_signal |].
    split; [reflexivity |].
    unfold status_checks; cbn. rewrite filter_app, length_app; cbn. lia.
  - rewrite (submit_run client request deletes inserts rate_limit change_token w1
               Hrate Htoken).
    cbn zeta. rewrite Hupdate.
    eexists. split; [reflexivity |]. split; [apply reported_with_signal |].
    split; [reflexivity |].
    unfold status_checks; cbn. rewrite !filter_app, !length_app; cbn. lia.
Qed.

Lemma X14_update_reports_service_errors_witness :
  exists w',
    update Case.update_refused Scenario.one_insert false Scenario.fresh = (Ok tt, w') /\
    reported w' = Some (Fail (ErrorText Scenario.throttled)) /\
    physical_resource_id w' = PNone /\
    status_checks w' = 0%nat.
Proof.
  apply (X14_update_reports_service_errors Case.update_refused Scenario.one_insert
           false [] [insert_entry Scenario.ip_a] (PInt 2000) Scenario.fresh
           Scenario.fresh Scenario.throttled eq_refl eq_refl).
  right. exists "token". split; reflexivity.
Defined.

(** X15.  When the update is accepted but the change never settles,
    [update] ends normally after 16 status checks with the failure
    'Max retries (15) reached...' reported; the resource identity is left
    as it was. *)
Theorem X15_update_times_out
    client request remove_all deletes inserts rate_limit change_token response
    w w1 :
  never_in_sync client ->
  reconcile request remove_all w = (Ok (Some (deletes, inserts)), w1) ->
  Py.dict_get (properties request) "RateLimit" = Some rate_limit ->
  svc_get_change_token client (calls w1) = Reply change_token ->
  svc_update_rate_based_rule client (calls w1 ++ [GetChangeToken])
    (update_kwargs (physical_resource_id w1) rate_limit deletes inserts
                   change_token) = Reply response ->
  exists w',
    update client request remove_all w = (Ok tt, w') /\
    reported w' = Some (Fail (MaxRetriesReached 15)) /\
    physical_resource_id w' = physical_resource_id w1 /\
    status_checks w' = (status_checks w1 + 16)%nat.
Proof.
  intros Hpending Hrec Hrate Htoken Hupdate.
  rewrite (update_run client request remove_all deletes inserts w w1 Hrec).
  rewrite (submit_run client request deletes inserts rate_limit change_token w1
             Hrate Htoken).
  cbn zeta. rewrite Hupdate.
  unfold wait_for.
  rewrite (wait_on_status_never_in_sync client Hpending)
    by (unfold default_interval, default_max_interval, longest_sleep; lia).
  change (polls_left 0 default_max_retries) with 15%nat.
  cbn [after_wait status_Success status_Reason].
  eexists. split; [reflexivity |]. split; [apply reported_with_signal |].
  split; [reflexivity |].
  unfold with_signal. cbn [physical_resource_id signals calls sleeps].
  rewrite status_checks_repeat.
  unfold status_checks; cbn. rewrite !filter_app, !length_app; cbn. lia.
Qed.

Lemma X15_update_times_out_witness :
  never_in_sync Scenario.pending /\
  exists w',
    update Scenario.pending Scenario.one_insert false Scenario.fresh = (Ok tt, w') /\
    reported w' = Some (Fail (MaxRetriesReached 15)) /\
    physical_resource_id w' = PNone /\
    status_checks w' = 16%nat.
Proof.
  assert (Hpending : never_in_sync Scenario.pending).
  { intros log tok. exists "PENDING". split; [reflexivity | discriminate]. }
  split; [exact Hpending |].
  exact (X15_update_times_out Scenario.pending Scenario.one_insert false []
           [insert_entry Scenario.ip_a] (PInt 2000) "token" "token-updated"
           Scenario.fresh Scenario.fresh Hpending eq_refl eq_refl eq_refl eq_refl).
Defined.

(** X16.  When the update is accepted and the first status check finds the
    change settled, [update] makes exactly three calls (change token,
    update, one status check), sleeps not at all and reports success with
    'Update is done.'. *)
Theorem X16_update_succeeds_in_three_calls
    client request remove_all deletes inserts rate_limit change_token response
    w w1 :
  reconcile request remove_all w = (Ok (Some (deletes, inserts)), w1) ->
  Py.dict_get (properties request) "RateLimit" = Some rate_limit ->
  svc_get_change_token client (calls w1) = Reply change_token ->
  let kwargs := update_kwargs (physical_resource_id w1) rate_limit deletes inserts
                              change_token in
  svc_update_rate_based_rule client (calls w1 ++ [GetChangeToken]) kwargs
  = Reply response ->
  svc_get_change_token_status client
    (calls w1 ++ [GetChangeToken; UpdateRateBasedRule kwargs]) response
  = Reply "INSYNC" ->
  update client request remove_all w
  = (Ok tt,
     mkWorld (physical_resource_id w1)
             (signals w1 ++ [Success (Some (Literal "Update is done."))])
             (calls w1 ++ [GetChangeToken; UpdateRateBasedRule kwargs;
                           GetChangeTokenStatus response])
             (sleeps w1)).
Proof.
  intros Hrec Hrate Htoken kwargs Hupdate Hstatus.
  rewrite (update_run client request remove_all deletes inserts w w1 Hrec).
  rewrite (submit_run client request deletes inserts rate_limit change_token w1
             Hrate Htoken).
  cbn zeta. fold kwargs. rewrite Hupdate.
  rewrite wait_for_in_sync_at_once
    by (cbn [with_call calls]; rewrite <- app_assoc; exact Hstatus).
  unfold with_signal, with_call.
  cbn [physical_resource_id signals calls sleeps].
  rewrite <- !app_assoc. reflexivity.
Qed.

Lemma X16_update_succeeds_in_three_calls_witness :
  update Scenario.settled Scenario.one_insert false Scenario.fresh
  = (Ok tt,
     mkWorld PNone [Success (Some (Literal "Update is done."))]
             [GetChangeToken;
              UpdateRateBasedRule
                (update_kwargs PNone (PInt 2000) [] [insert_entry Scenario.ip_a]
                               "token");
              GetChangeTokenStatus "token-updated"]
             []).
Proof.
  exact (X16_update_succeeds_in_three_calls Scenario.settled Scenario.one_insert
           false [] [insert_entry Scenario.ip_a] (PInt 2000) "token"
           "token-updated" Scenario.fresh Scenario.fresh
           eq_refl eq_refl eq_refl eq_refl eq_refl).
Defined.

(** X17.  A create request without ['Updates'], on a service that accepts
    the create call and lets the wait succeed, ends with 'Create is done.'
    reported and the identifier the service returned as the resource
    identity; [update] is not run. *)
Theorem X17_create_stores_the_rule_id
    client request w change_token response status w3 :
  Py.dict_mem (properties request) "Updates" = false ->
  svc_get_change_token client (calls w) = Reply change_token ->
  svc_create_rate_based_rule client (calls w ++ [GetChangeToken])
    (create_kwargs request change_token) = Reply response ->
  wait_for client (create_change_token response)
    (created w (create_kwargs request change_token) response)
  = (Ok (Some status), w3) ->
  status_Success status = true ->
  create client request w
  = (Ok tt, with_signal w3 (Success (Some (Literal "Create is done.")))) /\
  physical_resource_id (snd (create client request w)) = PStr (rule_id response).
Proof.
  intros Hnone Htoken Hcreate Hwait Hok.
  assert (Hrun : create client request w
                 = (Ok tt, with_signal w3 (Success (Some (Literal "Create is done."))))).
  { rewrite (create_run client request w change_token response Htoken Hcreate).
    rewrite (try_bind_ok _ _ _ _ _ _ Hwait).
    cbn [status_getitem].
    rewrite (try_bind_ok _ _ _ w3 true w3) by (unfold ret; now rewrite Hok).
    rewrite Hnone. reflexivity. }
  split; [exact Hrun |].
  rewrite Hrun. cbn [snd with_signal physical_resource_id].
  pose proof (wait_on_status_polling client (create_change_token response) 0
                default_interval default_max_interval default_max_retries
                (created w (create_kwargs request change_token) response)) as Hpoll.
  fold (wait_for client (create_change_token response)
          (created w (create_kwargs request change_token) response)) in Hpoll.
  rewrite Hwait in Hpoll. cbn [fst snd] in Hpoll.
  destruct (polling_frame _ _ _ _ _ _ _ _ _ Hpoll) as [Hid _]; [discriminate |].
  exact Hid.
Qed.

Lemma X17_create_stores_the_rule_id_witness :
  physical_resource_id
    (snd (create (Case.settling 1) Scenario.plain_request Scenario.fresh))
  = PStr "rule-1" /\
  reported (snd (create (Case.settling 1) Scenario.plain_request Scenario.fresh))
  = Some (Success (Some (Literal "Create is done."))).
Proof.
  destruct (X17_create_stores_the_rule_id (Case.settling 1) Scenario.plain_request
              Scenario.fresh "token" (mkCreateResponse "rule-1" "token-created")
              in_sync _ eq_refl eq_refl eq_refl eq_refl eq_refl)
    as [Hrun Hid].
  split; [exact Hid |].
  rewrite Hrun. reflexivity.
Defined.

(** ** What the handlers add to the call log *)

Lemma appends_ret {A : Type} (a : A) : appends (ret a).
Proof. intros w. exists []. cbn. now rewrite app_nil_r. Qed.

Lemma appends_lift {A : Type} (r : result A) : appends (lift r).
Proof. intros w. exists []. cbn. now rewrite app_nil_r. Qed.

Lemma appends_signal s : appends (signal s).
Proof. intros w. exists []. cbn. now rewrite app_nil_r. Qed.

Lemma appends_set_physical_resource_id v : appends (set_physical_resource_id v).
Proof. intros w. exists []. cbn. now rewrite app_nil_r. Qed.

Lemma appends_get_physical_resource_id : appends get_physical_resource_id.
Proof. intros w. exists []. cbn. now rewrite app_nil_r. Qed.

Lemma appends_status_getitem {A : Type} status (field : StatusRecord -> A) :
  appends (status_getitem status field).
Proof. intros w. exists []. destruct status; cbn; now rewrite app_nil_r. Qed.

Lemma appends_client_call {A : Type} c (answer : list Call -> reply A) :
  appends (client_call c answer).
Proof. intros w. exists [c]. unfold client_call. now destruct (answer (calls w)). Qed.

Lemma appends_bind {A B : Type} (m : M A) (k : A -> M B) :
  appends m -> (forall a, appends (k a)) -> appends (bind m k).
Proof.
  intros Hm Hk w. unfold bind.
  destruct (Hm w) as [more Hmore].
  destruct (m w) as [[a | e] w1]; cbn [snd] in Hmore.
  - destruct (Hk a w1) as [more' Hmore'].
    exists (more ++ more'). now rewrite Hmore', Hmore, app_assoc.
  - exists more. exact Hmore.
Qed.

Lemma appends_try {A : Type} (body : M A) (handler : client_error -> M A) :
  appends body -> (forall error, appends (handler error)) ->
  appends (try_except_ClientError body handler).
Proof.
  intros Hbody Hhandler w. unfold try_except_ClientError.
  destruct (Hbody w) as [more Hmore].
  destruct (body w) as [[a | [error | | k | | | | | name]] w1]; cbn [snd] in Hmore;
    try (exists more; exact Hmore).
  destruct (Hhandler error w1) as [more' Hmore'].
  exists (more ++ more'). now rewrite Hmore', Hmore, app_assoc.
Qed.

Lemma appends_wait_for client tok : appends (wait_for client tok).
Proof.
  intros w. unfold wait_for.
  destruct (polling_checks client tok 0 default_interval default_max_interval
              default_max_retries w _ _
              (wait_on_status_polling client tok 0 default_interval
                 default_max_interval default_max_retries w))
    as [n [_ Hcalls]].
  eexists. exact Hcalls.
Qed.

Lemma appends_match_new_predicates items old deletes inserts :
  appends (match_new_predicates items old deletes inserts).
Proof.
  intros w. exists []. rewrite app_nil_r.
  pose proof (match_new_predicates_world items old deletes inserts w) as Hworld.
  destruct (match_new_predicates items old deletes inserts w) as [[[found |] | e] w'];
    cbn [snd]; try now subst w'.
  destruct Hworld as [p [missing ->]]. reflexivity.
Qed.

Create HintDb appends.

#[local] Hint Resolve appends_ret appends_lift appends_signal
  appends_set_physical_resource_id appends_get_physical_resource_id
  appends_status_getitem appends_client_call appends_wait_for
  appends_match_new_predicates : appends.

Ltac appends_step :=
  first [ apply appends_bind; [| intros ?]
        | apply appends_try; [| intros ?]
        | solve [auto with appends]
        | match goal with
          | |- appends (if ?b then _ else _) => destruct b
          | |- appends (match ?x with _ => _ end) => destruct x
          end ].

Lemma appends_reconcile request remove_all : appends (reconcile request remove_all).
Proof.
  unfold reconcile. repeat appends_step.
Qed.

Lemma appends_submit client request deletes inserts :
  appends (submit client request deletes inserts).
Proof.
  unfold submit, success, fail, client_get_change_token,
    client_update_rate_based_rule.
  repeat appends_step.
Qed.

Lemma appends_update client request remove_all :
  appends (update client request remove_all).
Proof.
  unfold update. apply appends_bind; [apply appends_reconcile |].
  intros [[deletes inserts] |]; [apply appends_submit | apply appends_ret].
Qed.

(** The part of [create] that follows the create call. *)
Lemma appends_create_tail client request response :
  appends
    (try_except_ClientError
       (status <- wait_for client (create_change_token response) ;;
        ok <- status_getitem status status_Success ;;
        if ok then
          if Py.dict_mem (properties request) "Updates" then
            update client request false ;;
            ok <- status_getitem status status_Success ;;
            if ok then success (Some (Literal "Create and update are done."))
            else ret tt
          else success (Some (Literal "Create is done."))
        else
          reason <- status_getitem status status_Reason ;;
          fail reason)
       (fun error =>
          set_physical_resource_id (PStr "failed-to-create") ;;
          fail (ErrorText error))).
Proof.
  pose proof (appends_update client request false) as Hupdate.
  unfold success, fail.
  repeat first [ exact Hupdate | appends_step ].
Qed.

(** ** Lookups in the keyword arguments *)

Lemma dict_get_remove_same {A : Type} (d : list (string * A)) k :
  Py.dict_get (Py.dict_remove d k) k = None.
Proof.
  induction d as [| [k' v] d IH]; [reflexivity |].
  cbn. destruct (String.eqb k k') eqn:Hk; [exact IH |].
  cbn. now rewrite Hk.
Qed.

Lemma dict_get_remove_other {A : Type} (d : list (string * A)) k key :
  key <> k -> Py.dict_get (Py.dict_remove d k) key = Py.dict_get d key.
Proof.
  intros Hne. induction d as [| [k' v] d IH]; [reflexivity |].
  cbn. destruct (String.eqb k k') eqn:Hk.
  - apply String.eqb_eq in Hk. subst k'.
    destruct (String.eqb key k) eqn:Hkey; [| exact IH].
    apply String.eqb_eq in Hkey. contradiction.
  - cbn. now rewrite IH.
Qed.

Lemma dict_get_set_same {A : Type} (d : list (string * A)) k v :
  Py.dict_get (Py.dict_set d k v) k = Some v.
Proof.
  induction d as [| [k' v'] d IH]; cbn.
  - now rewrite String.eqb_refl.
  - destruct (String.eqb k k') eqn:Hk; cbn.
    + now rewrite String.eqb_refl.
    + now rewrite Hk.
Qed.

Lemma dict_get_set_other {A : Type} (d : list (string * A)) k v key :
  key <> k -> Py.dict_get (Py.dict_set d k v) key = Py.dict_get d key.
Proof.
  intros Hne.
  assert (Hkey : String.eqb key k = false) by now apply String.eqb_neq.
  induction d as [| [k' v'] d IH]; cbn.
  - now rewrite Hkey.
  - destruct (String.eqb k k') eqn:Hk; cbn.
    + apply String.eqb_eq in Hk. subst k'. now rewrite Hkey.
    + now rewrite IH.
Qed.

(** X18.  When the rule is created but the change never settles, [create]
    gives up after 16 status checks with 'Max retries (15) reached...'
    reported.  The resource identity stays the identifier of the rule that
    was created, and [update] is not run, whether or not the request has
    ['Updates']. *)
Theorem X18_create_times_out client request w change_token response :
  never_in_sync client ->
  svc_get_change_token client (calls w) = Reply change_token ->
  svc_create_rate_based_rule client (calls w ++ [GetChangeToken])
    (create_kwargs request change_token) = Reply response ->
  create client request w
  = (Ok tt,
     mkWorld (PStr (rule_id response))
             (signals w ++ [Fail (MaxRetriesReached 15)])
             (calls w ++ GetChangeToken
                      :: CreateRateBasedRule (create_kwargs request change_token)
                      :: repeat (GetChangeTokenStatus (create_change_token response)) 16)
             (sleeps w ++ repeat 30 15)).
Proof.
  intros Hpending Htoken Hcreate.
  rewrite (create_run client request w change_token response Htoken Hcreate).
  unfold wait_for.
  erewrite try_bind_ok
    by (apply (wait_on_status_never_in_sync client Hpending);
        unfold default_interval, default_max_interval, longest_sleep; lia).
  change (polls_left 0 default_max_retries) with 15%nat.
  unfold created, with_physical_resource_id, with_call.
  cbn [physical_resource_id signals calls sleeps].
  rewrite <- !app_assoc. reflexivity.
Qed.

Lemma X18_create_times_out_witness :
  never_in_sync Scenario.pending /\
  reported (snd (create Scenario.pending Case.full_request Scenario.fresh))
  = Some (Fail (MaxRetriesReached 15)) /\
  physical_resource_id (snd (create Scenario.pending Case.full_request Scenario.fresh))
  = PStr "rule-1".
Proof.
  assert (Hpending : never_in_sync Scenario.pending).
  { intros log tok. exists "PENDING". split; [reflexivity | discriminate]. }
  split; [exact Hpending |].
  rewrite (X18_create_times_out Scenario.pending Case.full_request Scenario.fresh
             "token" (mkCreateResponse "rule-1" "token-created")
             Hpending eq_refl eq_refl).
  split; reflexivity.
Defined.

(** X19.  Once it has a change token, [create] calls
    [create_rate_based_rule] right after [get_change_token], with the
    request's properties as keyword arguments: ['ServiceToken'] and
    ['MatchPredicates'] are taken out, ['ChangeToken'] is the token just
    obtained, and every other property is passed on unchanged, ['Updates']
    included. *)
Theorem X19_create_forwards_the_properties client request w change_token :
  svc_get_change_token client (calls w) = Reply change_token ->
  let kwargs := create_kwargs request change_token in
  (exists more,
      calls (snd (create client request w))
      = calls w ++ GetChangeToken :: CreateRateBasedRule kwargs :: more) /\
  Py.dict_get kwargs "ChangeToken" = Some (PStr change_token) /\
  Py.dict_get kwargs "ServiceToken" = None /\
  Py.dict_get kwargs "MatchPredicates" = None /\
  (forall key,
      key <> "ChangeToken" -> key <> "ServiceToken" -> key <> "MatchPredicates" ->
      Py.dict_get kwargs key = Py.dict_get (properties request) key).
Proof.
  intros Htoken kwargs. split; [| split; [| split; [| split]]].
  - destruct (svc_create_rate_based_rule client (calls w ++ [GetChangeToken]) kwargs)
      as [response | error | name] eqn:Hcreate.
    + rewrite (create_run client request w change_token response Htoken Hcreate).
      destruct (appends_create_tail client request response
                  (created w kwargs response)) as [more Hmore].
      exists more. fold kwargs. rewrite Hmore. cbn. now rewrite <- !app_assoc.
    + rewrite (create_call_fault client request w change_token error Htoken Hcreate).
      exists []. cbn. now rewrite <- !app_assoc.
    + rewrite (create_call_abort client request w change_token name Htoken Hcreate).
      exists []. cbn. now rewrite <- !app_assoc.
  - apply dict_get_set_same.
  - unfold kwargs, create_kwargs.
    rewrite dict_get_set_other by discriminate.
    rewrite dict_get_remove_other by discriminate.
    apply dict_get_remove_same.
  - unfold kwargs, create_kwargs.
    rewrite dict_get_set_other by discriminate.
    apply dict_get_remove_same.
  - intros key Htok Hservice Hmatch. unfold kwargs, create_kwargs.
    rewrite dict_get_set_other by assumption.
    now rewrite !dict_get_remove_other by assumption.
Qed.

Lemma X19_create_forwards_the_properties_witness :
  let kwargs := create_kwargs Case.full_request "token" in
  (exists more,
      calls (snd (create Scenario.settled Case.full_request Scenario.fresh))
      = calls Scenario.fresh
        ++ GetChangeToken :: CreateRateBasedRule kwargs :: more) /\
  Py.dict_get kwargs "ChangeToken" = Some (PStr "token") /\
  Py.dict_get kwargs "ServiceToken" = None /\
  Py.dict_get kwargs "MatchPredicates" = None /\
  (forall key,
      key <> "ChangeToken" -> key <> "ServiceToken" -> key <> "MatchPredicates" ->
      Py.dict_get kwargs key = Py.dict_get (properties Case.full_request) key).
Proof.
  exact (X19_create_forwards_the_properties Scenario.settled Case.full_request
           Scenario.fresh "token" eq_refl).
Defined.

(** X20.  [delete] does not look at what the update it runs first has
    reported: when that update returns, the rule is deleted all the same,
    and once the deletion has settled the last word to the framework is
    the success 'Delete is done.', also after a failed update. *)
Theorem X20_delete_goes_on_after_the_update
    client request w w1 change_token response :
  update client request true w = (Ok tt, w1) ->
  svc_get_change_token client (calls w1) = Reply change_token ->
  let kwargs := delete_kwargs (physical_resource_id w1) change_token in
  svc_delete_rate_based_rule client (calls w1 ++ [GetChangeToken]) kwargs
  = Reply response ->
  svc_get_change_token_status client
    (calls w1 ++ [GetChangeToken; DeleteRateBasedRule kwargs]) response
  = Reply "INSYNC" ->
  delete client request w
  = (Ok tt,
     mkWorld (physical_resource_id w1)
             (signals w1 ++ [Success (Some (Literal "Delete is done."))])
             (calls w1 ++ [GetChangeToken; DeleteRateBasedRule kwargs;
                           GetChangeTokenStatus response])
             (sleeps w1)).
Proof.
  intros Hupdate Htoken kwargs Hdelete Hstatus.
  rewrite (delete_run client request w w1 change_token Hupdate Htoken).
  cbn zeta. fold kwargs. rewrite Hdelete.
  rewrite wait_for_in_sync_at_once
    by (cbn [with_call calls]; rewrite <- app_assoc; exact Hstatus).
  unfold after_wait, in_sync, with_signal, with_call.
  cbn [status_Success physical_resource_id signals calls sleeps].
  rewrite <- !app_assoc. reflexivity.
Qed.

Lemma X20_delete_goes_on_after_the_update_witness :
  reported (snd (update Case.update_refused Scenario.two_previous true
                   Scenario.fresh))
  = Some (Fail (ErrorText Scenario.throttled)) /\
  reported (snd (delete Case.update_refused Scenario.two_previous Scenario.fresh))
  = Some (Success (Some (Literal "Delete is done."))).
Proof.
  split; [reflexivity |].
  rewrite (X20_delete_goes_on_after_the_update Case.update_refused
             Scenario.two_previous Scenario.fresh _ "token" "token-deleted"
             eq_refl eq_refl eq_refl eq_refl).
  reflexivity.
Defined.

(** X21.  A service error while [delete] obtains its change token or makes
    the delete call is reported as a failure under the error's text unless
    its message has 'WAFNonexistentItemException' in it; either way
    [delete] returns normally, waits for nothing and leaves the resource
    identity alone. *)
Theorem X21_delete_reports_other_errors
    client request w w1 error :
  update client request true w = (Ok tt, w1) ->
  svc_get_change_token client (calls w1) = Fault error \/
  (exists change_token,
      svc_get_change_token client (calls w1) = Reply change_token /\
      svc_delete_rate_based_rule client (calls w1 ++ [GetChangeToken])
        (delete_kwargs (physical_resource_id w1) change_token) = Fault error) ->
  exists w',
    delete client request w = (Ok tt, w') /\
    reported w'
    = Some (if Py.contains (error_message error) "WAFNonexistentItemException"
            then Success None else Fail (ErrorText error)) /\
    physical_resource_id w' = physical_resource_id w1 /\
    status_checks w' = status_checks w1.
Proof.
  intros Hupdate [Htoken | [change_token [Htoken Hdelete]]].
  - unfold delete.
    rewrite (bind_ok _ _ _ _ _ Hupdate).
    rewrite (bind_ok _ _ w1 (physical_resource_id w1) w1) by reflexivity.
    rewrite (try_bind_fault _ _ _ w1 error (with_call w1 GetChangeToken))
      by (now apply client_call_fault).
    unfold success, fail, signal.
    destruct (Py.contains (error_message error) "WAFNonexistentItemException");
      (eexists; split; [reflexivity |]; split; [apply reported_with_signal |];
       split; [reflexivity |];
       unfold status_checks; cbn; rewrite filter_app, length_app; cbn; lia).
  - rewrite (delete_run client request w w1 change_token Hupdate Htoken).
    cbn zeta. rewrite Hdelete.
    destruct (Py.contains (error_message error) "WAFNonexistentItemException");
      (eexists; split; [reflexivity |]; split; [apply reported_with_signal |];
       split; [reflexivity |];
       unfold status_checks; cbn; rewrite !filter_app, !length_app; cbn; lia).
Qed.

Lemma X21_delete_reports_other_errors_witness :
  exists w',
    delete Case.delete_refused Scenario.plain_request Scenario.fresh = (Ok tt, w') /\
    reported w' = Some (Fail (ErrorText Scenario.throttled)) /\
    physical_resource_id w' = PNone /\
    status_checks w' = 1%nat.
Proof.
  apply (X21_delete_reports_other_errors Case.delete_refused Scenario.plain_request
           Scenario.fresh _ Scenario.throttled eq_refl).
  right. exists "token". split; reflexivity.
Defined.

(** ** The exceptions that leave a handler *)

Lemma raises_within_ret {A : Type} P (a : A) : raises_within P (ret a).
Proof. intros w e. discriminate. Qed.

Lemma raises_within_signal P s : raises_within P (signal s).
Proof. intros w e. discriminate. Qed.

Lemma raises_within_set_physical_resource_id P v :
  raises_within P (set_physical_resource_id v).
Proof. intros w e. discriminate. Qed.

Lemma raises_within_get_physical_resource_id P :
  raises_within P get_physical_resource_id.
Proof. intros w e. discriminate. Qed.

Lemma raises_within_lift {A : Type} (P : exn -> Prop) (r : result A) :
  (forall e, r = Raise e -> P e) -> raises_within P (lift r).
Proof. intros Hr w e. apply Hr. Qed.

Lemma raises_within_status_getitem {A : Type} (P : exn -> Prop) status
    (field : StatusRecord -> A) :
  P TypeError -> raises_within P (status_getitem status field).
Proof.
  intros HP w e. destruct status; cbn; [discriminate |].
  now intros [= <-].
Qed.

Lemma raises_within_client_call {A : Type} c (answer : list Call -> reply A) :
  raises_within not_from_sleep (client_call c answer).
Proof.
  intros w e. unfold client_call.
  destruct (answer (calls w)); cbn; [discriminate | now intros [= <-] ..].
Qed.

(** With the arguments of the handlers no sleep is refused. *)
Lemma raises_within_wait_for client tok :
  raises_within not_from_sleep (wait_for client tok).
Proof.
  intros w e Hraise. unfold wait_for in Hraise.
  destruct (polling_raise client tok 0 default_interval default_max_interval
              default_max_retries w _ _
              (wait_on_status_polling client tok 0 default_interval
                 default_max_interval default_max_retries w) e Hraise)
    as [[name [log [-> _]]] | [_ [Hout | Hout]]].
  - exact I.
  - exfalso. apply Hout. unfold default_interval, longest_sleep. lia.
  - exfalso. apply Hout. unfold default_max_interval, longest_sleep. lia.
Qed.

Lemma raises_within_bind {A B : Type} P (m : M A) (k : A -> M B) :
  raises_within P m -> (forall a, raises_within P (k a)) ->
  raises_within P (bind m k).
Proof.
  intros Hm Hk w e. unfold bind.
  specialize (Hm w). destruct (m w) as [[a | e'] w1]; cbn [fst] in *.
  - apply Hk.
  - intros [= <-]. now apply Hm.
Qed.

Lemma raises_within_try {A : Type} (body : M A) (handler : client_error -> M A) :
  raises_within not_from_sleep body ->
  (forall error, raises_within handler_exn (handler error)) ->
  raises_within handler_exn (try_except_ClientError body handler).
Proof.
  intros Hbody Hhandler w e. unfold try_except_ClientError.
  specialize (Hbody w).
  destruct (body w) as [[a | [error | | k | | | | | name]] w1]; cbn [fst] in *;
    try discriminate; try (now intros [= <-]).
  - apply Hhandler.
  - now specialize (Hbody ValueError eq_refl).
  - now specialize (Hbody OverflowError eq_refl).
  - now specialize (Hbody OSError eq_refl).
Qed.

Lemma raises_within_weaken {A : Type} (m : M A) :
  raises_within handler_exn m -> raises_within not_from_sleep m.
Proof.
  intros Hm w e Hraise. specialize (Hm w e Hraise). now destruct e.
Qed.

Lemma raises_within_local {A : Type} (m : M A) :
  raises_within local_exn m -> raises_within handler_exn m.
Proof.
  intros Hm w e Hraise. specialize (Hm w e Hraise). now destruct e.
Qed.

Lemma getitem_local v key e : Py.getitem v key = Raise e -> local_exn e.
Proof.
  destruct (getitem_cases v key) as [[x ->] | [-> | ->]];
    [discriminate | now intros [= <-] ..].
Qed.

Lemma iter_local v e : Py.iter v = Raise e -> local_exn e.
Proof. destruct v; cbn; try discriminate; now intros [= <-]. Qed.

Lemma missing_fields_local p e : missing_fields p = Raise e -> local_exn e.
Proof.
  unfold missing_fields, Py.to_set.
  destruct (Py.iter p) as [items | e'] eqn:Hiter.
  - destruct (forallb Py.hashable items); [discriminate | now intros [= <-]].
  - intros [= <-]. now apply (iter_local p).
Qed.

Lemma find_old_predicate_local p old e :
  find_old_predicate p old = Raise e -> local_exn e.
Proof.
  unfold find_old_predicate.
  destruct (Py.iter old) as [[| first rest] | e'] eqn:Hiter.
  - discriminate.
  - destruct (Py.getitem p "DataId") as [new_id | e1] eqn:Hnew;
      [| intros [= <-]; now apply (getitem_local p "DataId")].
    destruct (Py.getitem first "DataId") as [old_id | e2] eqn:Hold;
      [| intros [= <-]; now apply (getitem_local first "DataId")].
    destruct (Py.eqb new_id old_id); discriminate.
  - intros [= <-]. now apply (iter_local old).
Qed.

Lemma pop_default_local container key e :
  Py.pop_default container key = Raise e -> local_exn e.
Proof.
  destruct container; cbn; try (now intros [= <-]).
  destruct key; cbn; try discriminate; now intros [= <-].
Qed.

Lemma raises_within_match_new_predicates items :
  forall old deletes inserts,
    raises_within local_exn (match_new_predicates items old deletes inserts).
Proof.
  induction items as [| p rest IH]; intros old deletes inserts;
    cbn [match_new_predicates].
  - apply raises_within_ret.
  - apply raises_within_bind;
      [apply raises_within_lift, missing_fields_local |].
    intros [| m ms].
    + apply raises_within_bind;
        [apply raises_within_lift, find_old_predicate_local |].
      intros found.
      apply raises_within_bind;
        [apply raises_within_lift, pop_default_local |].
      intros old'.
      destruct (negb (Py.is_none found) && negb (Py.eqb p found)); [apply IH |].
      destruct (Py.is_none found); apply IH.
    + apply raises_within_bind; [apply raises_within_signal |].
      intros _. apply raises_within_ret.
Qed.

Lemma raises_within_reconcile request remove_all :
  raises_within local_exn (reconcile request remove_all).
Proof.
  unfold reconcile. apply raises_within_bind.
  - destruct (negb remove_all); [| apply raises_within_ret].
    apply raises_within_bind; [apply raises_within_lift, getitem_local |].
    intros new_predicates.
    apply raises_within_bind; [apply raises_within_lift, iter_local |].
    intros items. apply raises_within_match_new_predicates.
  - intros [[[old deletes] inserts] |]; [| apply raises_within_ret].
    apply raises_within_bind; [apply raises_within_lift, iter_local |].
    intros remaining. apply raises_within_ret.
Qed.

(** The [wait_on_status] call and the signal that follows it in each
    handler. *)
Lemma raises_within_settle client tok (done : option StatusRecord -> M unit) :
  (forall status, raises_within not_from_sleep (done status)) ->
  raises_within not_from_sleep
    (status <- wait_for client tok ;;
     ok <- status_getitem status status_Success ;;
     if ok then done status
     else (reason <- status_getitem status status_Reason ;; fail reason)).
Proof.
  intros Hdone.
  apply raises_within_bind; [apply raises_within_wait_for |].
  intros status.
  apply raises_within_bind; [now apply raises_within_status_getitem |].
  intros [|]; [apply Hdone |].
  apply raises_within_bind; [now apply raises_within_status_getitem |].
  intros reason. apply raises_within_signal.
Qed.

Lemma raises_within_submit client request deletes inserts :
  raises_within handler_exn (submit client request deletes inserts).
Proof.
  unfold submit.
  apply raises_within_bind; [apply raises_within_get_physical_resource_id |].
  intros rule.
  apply raises_within_bind;
    [apply raises_within_local, raises_within_lift, getitem_local |].
  intros rate_limit.
  apply raises_within_try; [| intros error; apply raises_within_signal].
  apply raises_within_bind; [apply raises_within_client_call |].
  intros change_token.
  apply raises_within_bind; [apply raises_within_client_call |].
  intros response.
  apply (raises_within_settle client response
           (fun _ => success (Some (Literal "Update is done.")))).
  intros _. apply raises_within_signal.
Qed.

Lemma raises_within_update client request remove_all :
  raises_within handler_exn (update client request remove_all).
Proof.
  unfold update.
  apply raises_within_bind;
    [apply raises_within_local, raises_within_reconcile |].
  intros [[deletes inserts] |];
    [apply raises_within_submit | apply raises_within_ret].
Qed.

(** X22.  An update whose first requested predicate is complete gets past
    that predicate only on a rule that had no predicates before: with
    previous predicates of any kind (a list of predicates, a mapping, or
    anything else) [update] raises while it looks for the old predicate or
    pops it. *)
Theorem X22_update_works_without_previous_only
    client request new_predicates first rest w :
  Py.dict_get (properties request) "Updates" = Some new_predicates ->
  Py.iter new_predicates = Ok (first :: rest) ->
  missing_fields first = Ok [] ->
  fst (update client request false w) = Ok tt ->
  previous_predicates request = PDict [].
Proof.
  intros Hupdates Hiter Hcomplete.
  unfold update, reconcile, bind, lift. cbn [negb Py.getitem].
  rewrite Hupdates, Hiter. cbn [match_new_predicates].
  unfold bind, lift. rewrite Hcomplete.
  unfold find_old_predicate.
  destruct (previous_predicates request) as [| b | n | s | olds | olds];
    cbn [Py.iter]; try (cbn; discriminate).
  - destruct s as [| c s]; cbn [Py.chars]; [cbn; discriminate |].
    destruct (Py.getitem first "DataId"); cbn; discriminate.
  - destruct olds as [| old olds]; [cbn; discriminate |].
    destruct (Py.getitem first "DataId"); [| cbn; discriminate].
    destruct (Py.getitem old "DataId"); [| cbn; discriminate].
    destruct (Py.eqb _ _); cbn; discriminate.
  - destruct olds as [| [k v] olds]; [reflexivity |].
    cbn [map fst].
    destruct (Py.getitem first "DataId"); cbn; discriminate.
Qed.

Lemma X22_update_works_without_previous_only_witness :
  fst (update Scenario.settled Scenario.one_insert false Scenario.fresh) = Ok tt /\
  previous_predicates Scenario.one_insert = PDict [].
Proof.
  split; [reflexivity |].
  exact (X22_update_works_without_previous_only Scenario.settled Scenario.one_insert
           (PList [Scenario.ip_a]) Scenario.ip_a [] Scenario.fresh
           eq_refl eq_refl eq_refl eq_refl).
Defined.

(** X23.  No error response of the service and no error of [time.sleep]
    ever leaves a handler as an exception: whatever the client does and
    whatever the request holds, an exception that leaves [create],
    [update] or [delete] is a [TypeError], a [KeyError] or an
    [AttributeError] of the handler's own code, or an exception of the
    client that is not a [ClientError]. *)
Theorem X23_no_service_error_leaves_a_handler client request w e :
  (fst (create client request w) = Raise e -> handler_exn e) /\
  (forall remove_all,
      fst (update client request remove_all w) = Raise e -> handler_exn e) /\
  (fst (delete client request w) = Raise e -> handler_exn e).
Proof.
  split; [| split].
  - revert w e. change (raises_within handler_exn (create client request)).
    unfold create.
    apply raises_within_try.
    + apply raises_within_bind; [apply raises_within_client_call |].
      intros change_token.
      apply raises_within_bind; [apply raises_within_client_call |].
      intros response.
      apply raises_within_bind; [apply raises_within_set_physical_resource_id |].
      intros _.
      apply (raises_within_settle client (create_change_token response)
               (fun status =>
                  if Py.dict_mem (properties request) "Updates" then
                    update client request false ;;
                    ok <- status_getitem status status_Success ;;
                    if ok then success (Some (Literal "Create and update are done."))
                    else ret tt
                  else success (Some (Literal "Create is done.")))).
      intros status.
      destruct (Py.dict_mem (properties request) "Updates");
        [| apply raises_within_signal].
      apply raises_within_bind;
        [apply raises_within_weaken, raises_within_update |].
      intros _.
      apply raises_within_bind; [now apply raises_within_status_getitem |].
      intros [|]; [apply raises_within_signal | apply raises_within_ret].
    + intros error.
      apply raises_within_bind; [apply raises_within_set_physical_resource_id |].
      intros _. apply raises_within_signal.
  - intros remove_all. apply raises_within_update.
  - revert w e. change (raises_within handler_exn (delete client request)).
    unfold delete.
    apply raises_within_bind; [apply raises_within_update |].
    intros _.
    apply raises_within_bind; [apply raises_within_get_physical_resource_id |].
    intros rule.
    apply raises_within_try.
    + apply raises_within_bind; [apply raises_within_client_call |].
      intros change_token.
      apply raises_within_bind; [apply raises_within_client_call |].
      intros response.
      apply (raises_within_settle client response
               (fun _ => success (Some (Literal "Delete is done.")))).
      intros _. apply raises_within_signal.
    + intros error.
      destruct (Py.contains (error_message error) "WAFNonexistentItemException");
        apply raises_within_signal.
Qed.

Lemma X23_no_service_error_leaves_a_handler_witness :
  fst (update Case.update_invalid Scenario.one_insert false Scenario.fresh)
  = Raise (BotoCoreError "ParamValidationError") /\
  fst (delete Scenario.settled Case.no_rate_limit Scenario.fresh)
  = Raise (KeyError "RateLimit") /\
  handler_exn (BotoCoreError "ParamValidationError").
Proof.
  split; [reflexivity |]. split; [reflexivity |].
  exact (proj1 (proj2 (X23_no_service_error_leaves_a_handler Case.update_invalid
                         Scenario.one_insert Scenario.fresh
                         (BotoCoreError "ParamValidationError")))
           false eq_refl).
Defined.
